(** * howm: the X event handlers of [src/handler.c]

    A shallow embedding of [handle_event] and of the seven handlers it
    dispatches to.  The window manager's globals ([conf], [ewmh], [screen],
    [mon], the client lists) become an explicit state that every handler
    takes and returns; the calls a handler makes on its collaborators and on
    the X connection are appended, in order, to a trace kept in that state. *)

From Stdlib Require Import ZArith Lia List Bool String.
From stdpp Require Import base list.
Import ListNotations.
Open Scope Z_scope.

(** ** Machine integers

    C integers are [Z] values; a conversion to a fixed-width type is written
    out where the source performs one. *)

Definition is_uint8 (z : Z) : Prop := 0 <= z < 2 ^ 8.
Definition is_uint16 (z : Z) : Prop := 0 <= z < 2 ^ 16.
Definition is_int16 (z : Z) : Prop := - 2 ^ 15 <= z < 2 ^ 15.
Definition is_uint32 (z : Z) : Prop := 0 <= z < 2 ^ 32.

(** Conversion of an [int] to [uint32_t], as in [vals[i++] = e]. *)
Definition to_uint32 (z : Z) : Z := z mod 2 ^ 32.
(** A [uint32_t] word read back as a 32-bit two's complement number. *)
Definition to_int32 (z : Z) : Z := (z + 2 ^ 31) mod 2 ^ 32 - 2 ^ 31.
(** Conversion of an [int] to [int16_t], as in [c->rect.x = e]. *)
Definition to_int16 (z : Z) : Z := (z + 2 ^ 15) mod 2 ^ 16 - 2 ^ 15.

(** [a & b] used as a C condition. *)
Definition c_and_set (a b : Z) : bool := negb (Z.land a b =? 0).

(** ** Constants of [xcb/xproto.h] *)

Definition XCB_BUTTON_PRESS : Z := 4.
Definition XCB_ENTER_NOTIFY : Z := 7.
Definition XCB_DESTROY_NOTIFY : Z := 17.
Definition XCB_UNMAP_NOTIFY : Z := 18.
Definition XCB_MAP_REQUEST : Z := 20.
Definition XCB_CONFIGURE_NOTIFY : Z := 22.
Definition XCB_CONFIGURE_REQUEST : Z := 23.
Definition XCB_CLIENT_MESSAGE : Z := 33.

Definition XCB_BUTTON_INDEX_1 : Z := 1.
Definition XCB_ALLOW_REPLAY_POINTER : Z := 2.

Definition XCB_CONFIG_WINDOW_X : Z := 1.
Definition XCB_CONFIG_WINDOW_Y : Z := 2.
Definition XCB_CONFIG_WINDOW_WIDTH : Z := 4.
Definition XCB_CONFIG_WINDOW_HEIGHT : Z := 8.
Definition XCB_CONFIG_WINDOW_BORDER_WIDTH : Z := 16.
Definition XCB_CONFIG_WINDOW_SIBLING : Z := 32.
Definition XCB_CONFIG_WINDOW_STACK_MODE : Z := 64.

(** ** Data *)

Definition xcb_window_t := Z.
Definition xcb_atom_t := Z.

(** [xcb_rectangle_t]: [int16_t x, y; uint16_t width, height]. *)
Record xcb_rectangle_t := {
  rect_x : Z;
  rect_y : Z;
  rect_width : Z;
  rect_height : Z
}.

(** The fields of [client_t] that [handler.c] reads or writes; [rect] is
    an [xcb_rectangle_t]. *)
Record client_t := {
  win : xcb_window_t;
  is_floating : bool;
  is_transient : bool;
  rect : xcb_rectangle_t
}.

(** The layouts enumeration; [handler.c] names [ZOOM] only. *)
Inductive layouts := ZOOM | GRID | HSTACK | VSTACK.

Definition layouts_eqb (a b : layouts) : bool :=
  match a, b with
  | ZOOM, ZOOM | GRID, GRID | HSTACK, HSTACK | VSTACK, VSTACK => true
  | _, _ => false
  end.

(** The fields of [mon->ws] that [handler.c] reads; [bar_height] is
    [uint16_t]. *)
Record workspace_t := {
  bar_height : Z;
  layout : layouts
}.

(** The fields of [monitor_t] that [handler.c] reads; [rect] is an
    [xcb_rectangle_t], [workspace_cnt] is unsigned. *)
Record monitor_t := {
  mon_rect : xcb_rectangle_t;
  workspace_cnt : Z;
  ws : workspace_t
}.

(** The fields of the global [conf] that [handler.c] reads; [border_px],
    [float_spawn_width] and [float_spawn_height] are [uint16_t], so that the
    arithmetic on them is done in [int]. *)
Record config := {
  focus_mouse : bool;
  focus_mouse_click : bool;
  bar_bottom : bool;
  center_floating : bool;
  border_px : Z;
  float_spawn_width : Z;
  float_spawn_height : Z
}.

(** The atoms of the [ewmh] connection that [handler.c] compares with. *)
Record ewmh_atoms := {
  _NET_WM_WINDOW_TYPE_DOCK : xcb_atom_t;
  _NET_WM_WINDOW_TYPE_TOOLBAR : xcb_atom_t;
  _NET_WM_WINDOW_TYPE_NOTIFICATION : xcb_atom_t;
  _NET_WM_WINDOW_TYPE_DROPDOWN_MENU : xcb_atom_t;
  _NET_WM_WINDOW_TYPE_SPLASH : xcb_atom_t;
  _NET_WM_WINDOW_TYPE_POPUP_MENU : xcb_atom_t;
  _NET_WM_WINDOW_TYPE_TOOLTIP : xcb_atom_t;
  _NET_WM_WINDOW_TYPE_DIALOG : xcb_atom_t;
  _NET_WM_STATE : xcb_atom_t;
  _NET_CLOSE_WINDOW : xcb_atom_t;
  _NET_ACTIVE_WINDOW : xcb_atom_t;
  _NET_CURRENT_DESKTOP : xcb_atom_t
}.

Record xcb_screen_t := { root : xcb_window_t }.

(** *** Events

    Each handler casts the generic event to the structure of its own kind
    and reads fields from it.  The generic event carries its
    [response_type] and, for each such cast, the structure the cast reads. *)

Record xcb_button_press_event_t := {
  be_detail : Z;
  be_time : Z;
  be_event : xcb_window_t;
  be_event_x : Z;
  be_event_y : Z
}.

Record xcb_map_request_event_t := { me_window : xcb_window_t }.

Record xcb_destroy_notify_event_t := { de_window : xcb_window_t }.

Record xcb_enter_notify_event_t := {
  ee_event : xcb_window_t;
  ee_root_x : Z;
  ee_root_y : Z
}.

(** [int16_t x, y; uint16_t width, height, border_width, value_mask;
    xcb_window_t sibling; uint8_t stack_mode]. *)
Record xcb_configure_request_event_t := {
  ce_window : xcb_window_t;
  ce_x : Z;
  ce_y : Z;
  ce_width : Z;
  ce_height : Z;
  ce_border_width : Z;
  ce_sibling : xcb_window_t;
  ce_stack_mode : Z;
  ce_value_mask : Z
}.

Record xcb_unmap_notify_event_t := {
  ue_event : xcb_window_t;
  ue_window : xcb_window_t
}.

(** [data32_0], [data32_1], [data32_2] are [cm->data.data32[0..2]]. *)
Record xcb_client_message_event_t := {
  cm_window : xcb_window_t;
  cm_type : xcb_atom_t;
  data32_0 : Z;
  data32_1 : Z;
  data32_2 : Z
}.

Record xcb_generic_event_t := {
  response_type : Z;
  as_button_press : xcb_button_press_event_t;
  as_map_request : xcb_map_request_event_t;
  as_destroy_notify : xcb_destroy_notify_event_t;
  as_enter_notify : xcb_enter_notify_event_t;
  as_configure_request : xcb_configure_request_event_t;
  as_unmap_notify : xcb_unmap_notify_event_t;
  as_client_message : xcb_client_message_event_t
}.

(** *** Replies of the X server *)

Record xcb_get_window_attributes_reply_t := { override_redirect : Z }.

(** [int16_t x, y; uint16_t width, height]. *)
Record xcb_get_geometry_reply_t := {
  geom_x : Z;
  geom_y : Z;
  geom_width : Z;
  geom_height : Z
}.

(** What the server answers to the queries of one handler run.  [None] is
    the [NULL] reply (for the two [uint8_t]-returning calls: a return value
    other than 1, which leaves the out parameter unwritten).
    [point_to_monitor] is the collaborator of [monitor.c]. *)
Record xserver := {
  xcb_get_window_attributes_reply :
    xcb_window_t -> option xcb_get_window_attributes_reply_t;
  xcb_ewmh_get_wm_window_type_reply : xcb_window_t -> option (list xcb_atom_t);
  xcb_icccm_get_wm_transient_for_reply : xcb_window_t -> option xcb_window_t;
  xcb_get_geometry_reply : xcb_window_t -> option xcb_get_geometry_reply_t;
  point_to_monitor : Z * Z -> monitor_t
}.

(** *** The trace of calls

    A [client_t *] is the position of the client in the client list. *)

Inductive call :=
| Create_client (w : xcb_window_t)
| Remove_client (c : nat) (flag : bool)
| Arrange_windows
| Update_focused_client (c : option nat)
| Grab_buttons (c : nat)
| Focus_window (w : xcb_window_t)
| Focus_monitor (m : monitor_t)
| Howm_info
| Ewmh_process_wm_state (c : nat) (a : xcb_atom_t) (action : Z)
| Index_to_workspace (index : Z)
| Change_ws (index : Z)
| Xcb_map_window (w : xcb_window_t)
| Xcb_configure_window (w : xcb_window_t) (value_mask : Z) (vals : list Z)
| Xcb_allow_events (mode : Z) (time : Z)
| Xcb_flush.

Inductive log_entry :=
| Log_info (fmt : string) (args : list Z)
| Log_debug (fmt : string) (args : list Z).

(** *** The window manager's state *)

Record wm_state := {
  clients : list client_t;
  mon : monitor_t;
  calls : list call;
  logs : list log_entry
}.

Definition with_clients (f : list client_t -> list client_t) (st : wm_state)
  : wm_state :=
  {| clients := f (clients st); mon := mon st;
     calls := calls st; logs := logs st |}.

Definition do_call (a : call) (st : wm_state) : wm_state :=
  {| clients := clients st; mon := mon st;
     calls := calls st ++ [a]; logs := logs st |}.

Definition log_info (fmt : string) (args : list Z) (st : wm_state) : wm_state :=
  {| clients := clients st; mon := mon st;
     calls := calls st; logs := logs st ++ [Log_info fmt args] |}.

Definition log_debug (fmt : string) (args : list Z) (st : wm_state) : wm_state :=
  {| clients := clients st; mon := mon st;
     calls := calls st; logs := logs st ++ [Log_debug fmt args] |}.

(** ** Collaborators *)

(** Modelled from the spec: the record that [create_client] of client.c,
    which is not among the sources, returns.  "Create a new Client bound to
    the window handle"; a client on which no reply has acted has the
    defaults of the spec's failure semantics, "non-floating, default spawn
    geometry, no transient relationship": the configured floating-spawn
    width and height (the spec names no default position; the origin is
    taken). *)
Definition new_client (conf : config) (w : xcb_window_t) : client_t :=
  {| win := w; is_floating := false; is_transient := false;
     rect := {| rect_x := 0; rect_y := 0;
                rect_width := float_spawn_width conf;
                rect_height := float_spawn_height conf |} |}.

(** Modelled from the spec: the search of [find_client_by_win] of client.c,
    which is not among the sources; the Registry's
    [find(window_handle) -> Client?]: the first client of the list bound to
    the window, [None] for [NULL]. *)
Fixpoint find_win (w : xcb_window_t) (l : list client_t) : option nat :=
  match l with
  | [] => None
  | c :: l' => if win c =? w then Some O else S <$> find_win w l'
  end.

(** Modelled from the spec: [find_client_by_win] of client.c, run on the
    client list of the state. *)
Definition find_client_by_win (w : xcb_window_t) (st : wm_state) : option nat :=
  find_win w (clients st).

(** Modelled from the spec: [create_client] of client.c, the Registry's
    [create(window_handle) -> Client]: the new client is inserted into the
    client list and a pointer to it is returned. *)
Definition create_client (conf : config) (w : xcb_window_t) (st : wm_state)
  : nat * wm_state :=
  (length (clients st),
   do_call (Create_client w)
     (with_clients (fun l => l ++ [new_client conf w]) st)).

(** Modelled from the spec: [remove_client] of client.c, the Registry's
    [remove(Client, bool)]: the client leaves the client list. *)
Definition remove_client (c : nat) (flag : bool) (st : wm_state) : wm_state :=
  do_call (Remove_client c flag) (with_clients (delete c) st).

(** Modelled from the spec: [focus_monitor] of monitor.c makes its argument
    the focused monitor, the global [mon]. *)
Definition focus_monitor (m : monitor_t) (st : wm_state) : wm_state :=
  do_call (Focus_monitor m)
    {| clients := clients st; mon := m; calls := calls st; logs := logs st |}.

(** The remaining collaborators and the requests sent on the X connection
    are recorded with their arguments, not run: what the layout or the
    focus code does to the records of the clients is not part of this
    model, which follows the writes of [handler.c] itself. *)
Definition arrange_windows : wm_state -> wm_state := do_call Arrange_windows.
Definition update_focused_client (c : option nat) : wm_state -> wm_state :=
  do_call (Update_focused_client c).
Definition grab_buttons (c : nat) : wm_state -> wm_state :=
  do_call (Grab_buttons c).
Definition focus_window (w : xcb_window_t) : wm_state -> wm_state :=
  do_call (Focus_window w).
Definition howm_info : wm_state -> wm_state := do_call Howm_info.
Definition ewmh_process_wm_state (c : nat) (a : xcb_atom_t) (action : Z)
  : wm_state -> wm_state :=
  do_call (Ewmh_process_wm_state c a action).
Definition change_ws_index_to_workspace (index : Z) (st : wm_state) : wm_state :=
  do_call (Change_ws index) (do_call (Index_to_workspace index) st).
Definition xcb_map_window (w : xcb_window_t) : wm_state -> wm_state :=
  do_call (Xcb_map_window w).
Definition xcb_configure_window (w : xcb_window_t) (value_mask : Z)
  (vals : list Z) : wm_state -> wm_state :=
  do_call (Xcb_configure_window w value_mask vals).
Definition xcb_allow_events (mode time : Z) : wm_state -> wm_state :=
  do_call (Xcb_allow_events mode time).
Definition xcb_flush : wm_state -> wm_state := do_call Xcb_flush.

(** *** Reading and writing through a [client_t *] *)

(** What a pointer past the end of the list reads; no handler follows
    one. *)
Definition null_client : client_t :=
  {| win := 0; is_floating := false; is_transient := false;
     rect := {| rect_x := 0; rect_y := 0; rect_width := 0; rect_height := 0 |} |}.

Definition deref (c : nat) (st : wm_state) : client_t :=
  default null_client (clients st !! c).

Definition set_is_floating (b : bool) (cl : client_t) : client_t :=
  {| win := win cl; is_floating := b; is_transient := is_transient cl;
     rect := rect cl |}.

Definition set_is_transient (b : bool) (cl : client_t) : client_t :=
  {| win := win cl; is_floating := is_floating cl; is_transient := b;
     rect := rect cl |}.

Definition set_rect (f : xcb_rectangle_t -> xcb_rectangle_t) (cl : client_t)
  : client_t :=
  {| win := win cl; is_floating := is_floating cl;
     is_transient := is_transient cl; rect := f (rect cl) |}.

Definition set_x (v : Z) (r : xcb_rectangle_t) : xcb_rectangle_t :=
  {| rect_x := v; rect_y := rect_y r;
     rect_width := rect_width r; rect_height := rect_height r |}.
Definition set_y (v : Z) (r : xcb_rectangle_t) : xcb_rectangle_t :=
  {| rect_x := rect_x r; rect_y := v;
     rect_width := rect_width r; rect_height := rect_height r |}.
Definition set_width (v : Z) (r : xcb_rectangle_t) : xcb_rectangle_t :=
  {| rect_x := rect_x r; rect_y := rect_y r;
     rect_width := v; rect_height := rect_height r |}.
Definition set_height (v : Z) (r : xcb_rectangle_t) : xcb_rectangle_t :=
  {| rect_x := rect_x r; rect_y := rect_y r;
     rect_width := rect_width r; rect_height := v |}.

(** [c->field = v]. *)
Definition write (c : nat) (f : client_t -> client_t) : wm_state -> wm_state :=
  with_clients (alter f c).

(** ** The handlers *)

Section Handlers.

(** The globals [conf], [ewmh] and [screen], and the server's answers. *)
Variable conf : config.
Variable ewmh : ewmh_atoms.
Variable screen : xcb_screen_t.
Variable X : xserver.

Definition button_press_event (ev : xcb_generic_event_t) (st : wm_state)
  : wm_state :=
  let be := as_button_press ev in
  let st := log_info "Button %d pressed at (%d, %d)"
              [be_detail be; be_event_x be; be_event_y be] st in
  let st := if focus_mouse_click conf && (be_detail be =? XCB_BUTTON_INDEX_1)
            then focus_window (be_event be) st
            else st in
  if focus_mouse_click conf
  then xcb_flush (xcb_allow_events XCB_ALLOW_REPLAY_POINTER (be_time be) st)
  else st.

(** The two tests on a window type atom in the loop of [map_event]. *)
Definition is_dock_type (a : xcb_atom_t) : bool :=
  (a =? _NET_WM_WINDOW_TYPE_DOCK ewmh)
  || (a =? _NET_WM_WINDOW_TYPE_TOOLBAR ewmh).

Definition is_floating_type (a : xcb_atom_t) : bool :=
  (a =? _NET_WM_WINDOW_TYPE_NOTIFICATION ewmh)
  || (a =? _NET_WM_WINDOW_TYPE_DROPDOWN_MENU ewmh)
  || (a =? _NET_WM_WINDOW_TYPE_SPLASH ewmh)
  || (a =? _NET_WM_WINDOW_TYPE_POPUP_MENU ewmh)
  || (a =? _NET_WM_WINDOW_TYPE_TOOLTIP ewmh)
  || (a =? _NET_WM_WINDOW_TYPE_DIALOG ewmh).

(** The loop over [type.atoms]; [inl] is the [return] out of [map_event]
    taken from inside the loop, [inr] the end of the loop. *)
Fixpoint map_event_types (c : nat) (atoms : list xcb_atom_t) (st : wm_state)
  : wm_state + wm_state :=
  match atoms with
  | [] => inr st
  | a :: atoms' =>
      if is_dock_type a
      then inl (remove_client c false (xcb_map_window (win (deref c st)) st))
      else if is_floating_type a
      then map_event_types c atoms' (write c (set_is_floating true) st)
      else map_event_types c atoms' st
  end.

(** The body of [if (geom)]. *)
Definition map_event_geometry (c : nat) (geom : xcb_get_geometry_reply_t)
  (st : wm_state) : wm_state :=
  let st := log_info "Mapped client's initial geom is %ux%u+%d+%d"
              [geom_width geom; geom_height geom; geom_x geom; geom_y geom]
              st in
  if is_floating (deref c st) then
    let st := write c (set_rect (set_width
                (if 1 <? geom_width geom then geom_width geom
                 else float_spawn_width conf))) st in
    let st := write c (set_rect (set_height
                (if 1 <? geom_height geom then geom_height geom
                 else float_spawn_height conf))) st in
    let st := write c (set_rect (set_x
                (if center_floating conf
                 then to_int16 (rect_width (mon_rect (mon st)) ÷ 2
                                - rect_width (rect (deref c st)) ÷ 2)
                 else geom_x geom))) st in
    write c (set_rect (set_y
      (if center_floating conf
       then to_int16 ((rect_height (mon_rect (mon st))
                       - bar_height (ws (mon st))
                       - rect_height (rect (deref c st))) ÷ 2)
       else geom_y geom))) st
  else st.

(** The condition of the first [if] of [map_event]. *)
Definition map_event_guard (w : xcb_window_t) (st : wm_state) : bool :=
  match xcb_get_window_attributes_reply X w with
  | None => true
  | Some wa =>
      negb (override_redirect wa =? 0)
      || bool_decide (is_Some (find_client_by_win w st))
  end.

Definition map_event (ev : xcb_generic_event_t) (st : wm_state) : wm_state :=
  let me := as_map_request ev in
  if map_event_guard (me_window me) st then st
  else
    let st := log_info "Mapping request for window <0x%x>" [me_window me] st in
    let '(c, st) := create_client conf (me_window me) st in
    match
      match xcb_ewmh_get_wm_window_type_reply X (me_window me) with
      | Some atoms => map_event_types c atoms st
      | None => inr st
      end
    with
    | inl st => st
    | inr st =>
        let transient :=
          default 0 (xcb_icccm_get_wm_transient_for_reply X (me_window me)) in
        let st := write c (set_is_transient (negb (transient =? 0))) st in
        let st := if is_transient (deref c st)
                  then write c (set_is_floating true) st
                  else st in
        let st := match xcb_get_geometry_reply X (me_window me) with
                  | Some geom => map_event_geometry c geom st
                  | None => st
                  end in
        let st := arrange_windows st in
        let st := xcb_map_window (win (deref c st)) st in
        let st := update_focused_client (Some c) st in
        grab_buttons c st
    end.

Definition destroy_event (ev : xcb_generic_event_t) (st : wm_state)
  : wm_state :=
  let de := as_destroy_notify ev in
  match find_client_by_win (de_window de) st with
  | None => st
  | Some c =>
      let st := log_info "Client <%p> wants to be destroyed" [Z.of_nat c] st in
      arrange_windows (remove_client c true st)
  end.

Definition enter_event (ev : xcb_generic_event_t) (st : wm_state)
  : wm_state :=
  let ee := as_enter_notify ev in
  let point := (ee_root_x ee, ee_root_y ee) in
  let st := log_debug "Enter event for window <0x%x>" [ee_event ee] st in
  let st := focus_monitor (point_to_monitor X point) st in
  if focus_mouse conf && negb (layouts_eqb (layout (ws (mon st))) ZOOM)
  then focus_window (ee_event ee) st
  else st.

(** [vals[i++] = v] on the pair of the array and the index. *)
Definition store (v : Z) (s : list Z * nat) : list Z * nat :=
  (<[snd s := to_uint32 v]> (fst s), S (snd s)).

(** The array [vals] and the index [i] when [xcb_configure_window] is
    called. *)
Definition configure_event_vals (ce : xcb_configure_request_event_t)
  (m : monitor_t) : list Z * nat :=
  let s := (replicate 7 0, O) in
  let s := if c_and_set XCB_CONFIG_WINDOW_X (ce_value_mask ce)
           then store (ce_x ce) s else s in
  let s := if c_and_set XCB_CONFIG_WINDOW_Y (ce_value_mask ce)
           then store (ce_y ce
                       + (if bar_bottom conf then 0 else bar_height (ws m))) s
           else s in
  let s := if c_and_set XCB_CONFIG_WINDOW_WIDTH (ce_value_mask ce)
           then store (if ce_width ce
                          <? rect_width (mon_rect m) - border_px conf
                       then ce_width ce
                       else rect_width (mon_rect m) - border_px conf) s
           else s in
  let s := if c_and_set XCB_CONFIG_WINDOW_HEIGHT (ce_value_mask ce)
           then store (if ce_height ce
                          <? rect_height (mon_rect m) - border_px conf
                       then ce_height ce
                       else rect_height (mon_rect m) - border_px conf) s
           else s in
  let s := if c_and_set XCB_CONFIG_WINDOW_BORDER_WIDTH (ce_value_mask ce)
           then store (ce_border_width ce) s else s in
  let s := if c_and_set XCB_CONFIG_WINDOW_SIBLING (ce_value_mask ce)
           then store (ce_sibling ce) s else s in
  if c_and_set XCB_CONFIG_WINDOW_STACK_MODE (ce_value_mask ce)
  then store (ce_stack_mode ce) s else s.

Definition configure_event (ev : xcb_generic_event_t) (st : wm_state)
  : wm_state :=
  let ce := as_configure_request ev in
  let st := log_info "Received configure request for window <0x%x>"
              [ce_window ce] st in
  let vals := fst (configure_event_vals ce (mon st)) in
  arrange_windows
    (xcb_configure_window (ce_window ce) (ce_value_mask ce) vals st).

Definition unmap_event (ev : xcb_generic_event_t) (st : wm_state)
  : wm_state :=
  let ue := as_unmap_notify ev in
  match find_client_by_win (ue_window ue) st with
  | None => st
  | Some c =>
      let st := log_info "Received unmap request for client <%p>"
                  [Z.of_nat c] st in
      let st := if negb (ue_event ue =? root screen)
                then arrange_windows (remove_client c true st)
                else st in
      howm_info st
  end.

Definition client_message_event (ev : xcb_generic_event_t) (st : wm_state)
  : wm_state :=
  let cm := as_client_message ev in
  let unhandled := log_debug "Unhandled client message: %d" [cm_type cm] in
  match find_client_by_win (cm_window cm) st with
  | Some c =>
      if cm_type cm =? _NET_WM_STATE ewmh then
        let st := ewmh_process_wm_state c (data32_1 cm) (data32_0 cm) st in
        if negb (data32_2 cm =? 0)
        then ewmh_process_wm_state c (data32_2 cm) (data32_0 cm) st
        else st
      else if cm_type cm =? _NET_CLOSE_WINDOW ewmh then
        let st := log_info "_NET_CLOSE_WINDOW: Removing client <%p>"
                    [Z.of_nat c] st in
        arrange_windows (remove_client c true st)
      else if cm_type cm =? _NET_ACTIVE_WINDOW ewmh then
        let st := log_info "_NET_ACTIVE_WINDOW: Focusing client <%p>"
                    [Z.of_nat c] st in
        update_focused_client (find_client_by_win (cm_window cm) st) st
      else if (cm_type cm =? _NET_CURRENT_DESKTOP ewmh)
              && (data32_0 cm <? workspace_cnt (mon st)) then
        let st := log_info "_NET_CURRENT_DESKTOP: Changing to workspace <%d>"
                    [data32_0 cm] st in
        change_ws_index_to_workspace (data32_0 cm) st
      else unhandled st
  | None => unhandled st
  end.

Definition unhandled_event (ev : xcb_generic_event_t) (st : wm_state)
  : wm_state :=
  log_debug "Unhandled event: %d" [Z.land (response_type ev) (Z.lnot 128)] st.

Definition handle_event (ev : xcb_generic_event_t) (st : wm_state)
  : wm_state :=
  let kind := Z.land (response_type ev) (Z.lnot 128) in
  if kind =? XCB_BUTTON_PRESS then button_press_event ev st
  else if kind =? XCB_MAP_REQUEST then map_event ev st
  else if kind =? XCB_DESTROY_NOTIFY then destroy_event ev st
  else if kind =? XCB_ENTER_NOTIFY then enter_event ev st
  else if kind =? XCB_CONFIGURE_NOTIFY then configure_event ev st
  else if kind =? XCB_UNMAP_NOTIFY then unmap_event ev st
  else if kind =? XCB_CLIENT_MESSAGE then client_message_event ev st
  else unhandled_event ev st.

End Handlers.

(** ** Notions used in the statements *)

(** The number of clients bound to a window. *)
Definition count_win (w : xcb_window_t) (l : list client_t) : nat :=
  length (filter (fun cl => win cl = w) l).

(** The calls made on the way from [st] to [st']. *)
Definition calls_since (st st' : wm_state) : list call :=
  drop (length (calls st)) (calls st').

(** The value list of a configure request as the specification words it:
    only the fields whose mask bit is set, in the order x, y, width,
    height, border width, sibling, stack mode; y moved down by the bar
    height unless the bar is at the bottom; width and height no more than
    the monitor's minus the border; the other fields as requested. *)
Definition configure_spec (conf : config) (ce : xcb_configure_request_event_t)
  (m : monitor_t) : list Z :=
  let honour (bit v : Z) : list Z :=
    if Z.testbit (ce_value_mask ce) (Z.log2 bit) then [v] else [] in
  honour XCB_CONFIG_WINDOW_X (ce_x ce)
  ++ honour XCB_CONFIG_WINDOW_Y
       (if bar_bottom conf then ce_y ce else ce_y ce + bar_height (ws m))
  ++ honour XCB_CONFIG_WINDOW_WIDTH
       (Z.min (ce_width ce) (rect_width (mon_rect m) - border_px conf))
  ++ honour XCB_CONFIG_WINDOW_HEIGHT
       (Z.min (ce_height ce) (rect_height (mon_rect m) - border_px conf))
  ++ honour XCB_CONFIG_WINDOW_BORDER_WIDTH (ce_border_width ce)
  ++ honour XCB_CONFIG_WINDOW_SIBLING (ce_sibling ce)
  ++ honour XCB_CONFIG_WINDOW_STACK_MODE (ce_stack_mode ce).

(** The type atoms [map_event] loops over: those of the reply, none when
    the query fails. *)
Definition type_atoms (X : xserver) (w : xcb_window_t) : list xcb_atom_t :=
  default [] (xcb_ewmh_get_wm_window_type_reply X w).

(** The transient-for target [map_event] tests: the one of the reply, 0 (the
    initial value of the local [transient]) when the query fails. *)
Definition transient_for (X : xserver) (w : xcb_window_t) : xcb_window_t :=
  default 0 (xcb_icccm_get_wm_transient_for_reply X w).

(** What holds of the array [vals] and the index [i] of [configure_event]
    after at most [k] of its seven tests: the first [i] words are the values
    [acc] stored so far. *)
Definition vals_inv (s : list Z * nat) (acc : list Z) (k : nat) : Prop :=
  length (fst s) = 7%nat
  /\ snd s = length acc
  /\ take (snd s) (fst s) = map to_uint32 acc
  /\ (length acc <= k)%nat.

(** The windows of the clients, in the order of the client list. *)
Definition windows (st : wm_state) : list xcb_window_t := win <$> clients st.

(** The event [ev] delivered with the response type [rt]. *)
Definition with_response_type (rt : Z) (ev : xcb_generic_event_t)
  : xcb_generic_event_t :=
  {| response_type := rt;
     as_button_press := as_button_press ev;
     as_map_request := as_map_request ev;
     as_destroy_notify := as_destroy_notify ev;
     as_enter_notify := as_enter_notify ev;
     as_configure_request := as_configure_request ev;
     as_unmap_notify := as_unmap_notify ev;
     as_client_message := as_client_message ev |}.

(** The kinds [handle_event] has a case for. *)
Definition dispatched_kinds : list Z :=
  [XCB_BUTTON_PRESS; XCB_MAP_REQUEST; XCB_DESTROY_NOTIFY; XCB_ENTER_NOTIFY;
   XCB_CONFIGURE_NOTIFY; XCB_UNMAP_NOTIFY; XCB_CLIENT_MESSAGE].

(** ** Sample inputs

    Concrete configurations, states and events on which the theorems below
    are instantiated. *)

Module Sample.

Definition conf : config :=
  {| focus_mouse := true; focus_mouse_click := true; bar_bottom := false;
     center_floating := true; border_px := 2;
     float_spawn_width := 500; float_spawn_height := 300 |}.

Definition ewmh : ewmh_atoms :=
  {| _NET_WM_WINDOW_TYPE_DOCK := 301;
     _NET_WM_WINDOW_TYPE_TOOLBAR := 302;
     _NET_WM_WINDOW_TYPE_NOTIFICATION := 303;
     _NET_WM_WINDOW_TYPE_DROPDOWN_MENU := 304;
     _NET_WM_WINDOW_TYPE_SPLASH := 305;
     _NET_WM_WINDOW_TYPE_POPUP_MENU := 306;
     _NET_WM_WINDOW_TYPE_TOOLTIP := 307;
     _NET_WM_WINDOW_TYPE_DIALOG := 308;
     _NET_WM_STATE := 309;
     _NET_CLOSE_WINDOW := 310;
     _NET_ACTIVE_WINDOW := 311;
     _NET_CURRENT_DESKTOP := 312 |}.

Definition screen : xcb_screen_t := {| root := 1 |}.

Definition monitor : monitor_t :=
  {| mon_rect := {| rect_x := 0; rect_y := 0;
                    rect_width := 1920; rect_height := 1080 |};
     workspace_cnt := 5;
     ws := {| bar_height := 20; layout := HSTACK |} |}.

(** A server on which window 7 is an ordinary window of 100x50 at the
    origin, without type atoms and without a transient-for property. *)
Definition plain : xserver :=
  {| xcb_get_window_attributes_reply := fun _ => Some {| override_redirect := 0 |};
     xcb_ewmh_get_wm_window_type_reply := fun _ => None;
     xcb_icccm_get_wm_transient_for_reply := fun _ => None;
     xcb_get_geometry_reply := fun _ =>
       Some {| geom_x := 0; geom_y := 0; geom_width := 100; geom_height := 50 |};
     point_to_monitor := fun _ => monitor |}.

(** The same server with the given replies to the type, transient-for
    and geometry queries. *)
Definition server (type : option (list xcb_atom_t))
  (transient : option xcb_window_t) (geom : option xcb_get_geometry_reply_t)
  : xserver :=
  {| xcb_get_window_attributes_reply := fun _ => Some {| override_redirect := 0 |};
     xcb_ewmh_get_wm_window_type_reply := fun _ => type;
     xcb_icccm_get_wm_transient_for_reply := fun _ => transient;
     xcb_get_geometry_reply := fun _ => geom;
     point_to_monitor := fun _ => monitor |}.

(** No client yet. *)
Definition empty : wm_state :=
  {| clients := []; mon := monitor; calls := []; logs := [] |}.

(** Window 7 is managed. *)
Definition managed : wm_state :=
  {| clients := [new_client conf 7]; mon := monitor; calls := []; logs := [] |}.

Definition configure_request : xcb_configure_request_event_t :=
  {| ce_window := 7; ce_x := 5; ce_y := 10; ce_width := 4000;
     ce_height := 600; ce_border_width := 1; ce_sibling := 0;
     ce_stack_mode := 0; ce_value_mask := 15 |}.

(** An event of kind [rt] about window [w], reported by window [e]; as a
    client message it has type [t] and first data word [d]. *)
Definition event (rt : Z) (w e : xcb_window_t) (t : xcb_atom_t) (d : Z)
  : xcb_generic_event_t :=
  {| response_type := rt;
     as_button_press := {| be_detail := 1; be_time := 0; be_event := e;
                           be_event_x := 0; be_event_y := 0 |};
     as_map_request := {| me_window := w |};
     as_destroy_notify := {| de_window := w |};
     as_enter_notify := {| ee_event := e; ee_root_x := 0; ee_root_y := 0 |};
     as_configure_request := configure_request;
     as_unmap_notify := {| ue_event := e; ue_window := w |};
     as_client_message := {| cm_window := w; cm_type := t; data32_0 := d;
                             data32_1 := 0; data32_2 := 0 |} |}.

End Sample.

(** ** Properties *)

(** Case analysis on the conditions of the [if]s of the goal. *)
Ltac case_ifs :=
  repeat match goal with
         | |- context [if ?b then _ else _] => destruct b
         end.

(** *** The client list *)

Lemma find_win_lookup (w : xcb_window_t) (l : list client_t) (c : nat) :
  find_win w l = Some c -> exists cl, l !! c = Some cl /\ win cl = w.
Proof.
  revert c. induction l as [|a l IH]; intros c; simpl; [discriminate|].
  destruct (Z.eqb_spec (win a) w) as [E|E].
  - intros [= <-]. exists a. split; [reflexivity|exact E].
  - destruct (find_win w l) as [i|]; simpl; [|discriminate].
    intros [= <-]. destruct (IH i eq_refl) as (cl & H1 & H2).
    exists cl. split; assumption.
Qed.

Lemma find_win_None (w : xcb_window_t) (l : list client_t) :
  find_win w l = None <-> Forall (fun cl => win cl <> w) l.
Proof.
  induction l as [|a l IH]; simpl.
  - split; [constructor|reflexivity].
  - destruct (Z.eqb_spec (win a) w) as [E|E].
    + split; [discriminate|]. intros H. inversion H; subst. contradiction.
    + destruct (find_win w l) as [i|]; simpl.
      * split; [discriminate|]. intros H. inversion H; subst.
        apply IH in H3. discriminate.
      * split; [|reflexivity]. intros _. constructor; [exact E|].
        apply IH. reflexivity.
Qed.

Lemma find_win_snoc (w : xcb_window_t) (l : list client_t) (cl : client_t) :
  find_win w l = None -> win cl = w -> find_win w (l ++ [cl]) = Some (length l).
Proof.
  intros H E. induction l as [|a l IH]; simpl in *.
  - rewrite E, Z.eqb_refl. reflexivity.
  - destruct (win a =? w); [discriminate|].
    destruct (find_win w l); [discriminate|].
    rewrite IH; reflexivity.
Qed.

Lemma count_win_None (w : xcb_window_t) (l : list client_t) :
  find_win w l = None -> count_win w l = O.
Proof.
  rewrite find_win_None. unfold count_win. induction 1 as [|a l Ha _ IH].
  - reflexivity.
  - rewrite filter_cons_False; assumption.
Qed.

Lemma count_win_snoc (w : xcb_window_t) (l : list client_t) (cl : client_t) :
  win cl = w -> count_win w (l ++ [cl]) = S (count_win w l).
Proof.
  intros E. unfold count_win. rewrite filter_app, length_app.
  rewrite filter_cons_True by exact E. simpl. lia.
Qed.

(** *** Unmap *)

(** The run of [unmap_event] on a managed window. *)
Lemma unmap_event_managed (screen : xcb_screen_t) (ev : xcb_generic_event_t)
  (st : wm_state) (c : nat) :
  find_client_by_win (ue_window (as_unmap_notify ev)) st = Some c ->
  unmap_event screen ev st
  = howm_info
      ((if negb (ue_event (as_unmap_notify ev) =? root screen)
        then fun s => arrange_windows (remove_client c true s)
        else fun s => s)
         (log_info "Received unmap request for client <%p>" [Z.of_nat c] st)).
Proof.
  intros H. unfold unmap_event. rewrite H.
  destruct (negb _); reflexivity.
Qed.

(** C1, as the code has it: an unmap-notify for a managed window that is
    not reported by the root window removes the client, passing [true] as
    the flag of [remove_client], and then re-runs the layout; reported by
    the root window, it removes nothing. *)
Theorem unmap_event_removes (screen : xcb_screen_t) (ev : xcb_generic_event_t)
  (st : wm_state) (c : nat) :
  find_client_by_win (ue_window (as_unmap_notify ev)) st = Some c ->
  (ue_event (as_unmap_notify ev) <> root screen ->
     clients (unmap_event screen ev st) = delete c (clients st)
     /\ calls (unmap_event screen ev st)
        = calls st ++ [Remove_client c true; Arrange_windows; Howm_info])
  /\ (ue_event (as_unmap_notify ev) = root screen ->
        clients (unmap_event screen ev st) = clients st
        /\ calls (unmap_event screen ev st) = calls st ++ [Howm_info]).
Proof.
  intros H. rewrite (unmap_event_managed screen ev st c H). split.
  - intros Hne. apply Z.eqb_neq in Hne. rewrite Hne. simpl.
    split; [reflexivity|]. rewrite <- !app_assoc. reflexivity.
  - intros He. apply Z.eqb_eq in He. rewrite He. simpl.
    split; reflexivity.
Qed.

Lemma unmap_event_removes_witness :
  find_client_by_win
    (ue_window (as_unmap_notify (Sample.event 18 7 7 0 0))) Sample.managed
  = Some O
  /\ calls (unmap_event Sample.screen (Sample.event 18 7 7 0 0) Sample.managed)
     = [Remove_client 0 true; Arrange_windows; Howm_info]
  /\ calls (unmap_event Sample.screen (Sample.event 18 7 1 0 0) Sample.managed)
     = [Howm_info].
Proof.
  split; [reflexivity|]. split.
  - apply (proj1 (unmap_event_removes Sample.screen (Sample.event 18 7 7 0 0)
                    Sample.managed O eq_refl)).
    discriminate.
  - apply (proj2 (unmap_event_removes Sample.screen (Sample.event 18 7 1 0 0)
                    Sample.managed O eq_refl)).
    reflexivity.
Defined.

(** C1, as stated, fails: on the unmap-notify that window 7 reports for
    itself while it is managed, the client is removed with the flag [true];
    no call of [remove_client] with the flag [false] is made. *)
Lemma unmap_event_flag_counterexample :
  let ev := Sample.event 18 7 7 0 0 in
  let st := unmap_event Sample.screen ev Sample.managed in
  find_client_by_win (ue_window (as_unmap_notify ev)) Sample.managed = Some O
  /\ ue_event (as_unmap_notify ev) <> root Sample.screen
  /\ clients st = []
  /\ calls st = [Remove_client 0 true; Arrange_windows; Howm_info]
  /\ ~ In (Remove_client 0 false) (calls st).
Proof.
  simpl. repeat split; try reflexivity; try discriminate.
  intros [H|[H|[H|[]]]]; discriminate.
Qed.

(** C10: when the window of an unmap-notify is managed, the last call of
    [unmap_event] is the status refresh [howm_info], whether the client was
    removed or not (the root window reporting the event included); when
    the window is not managed, [unmap_event] changes nothing. *)
Theorem unmap_event_info (screen : xcb_screen_t) (ev : xcb_generic_event_t)
  (st : wm_state) :
  (forall c, find_client_by_win (ue_window (as_unmap_notify ev)) st = Some c ->
     last (calls (unmap_event screen ev st)) = Some Howm_info
     /\ exists made,
          calls (unmap_event screen ev st) = calls st ++ made ++ [Howm_info]
          /\ (made = [] <-> ue_event (as_unmap_notify ev) = root screen))
  /\ (find_client_by_win (ue_window (as_unmap_notify ev)) st = None ->
        unmap_event screen ev st = st).
Proof.
  split.
  - intros c H. rewrite (unmap_event_managed screen ev st c H).
    destruct (Z.eqb_spec (ue_event (as_unmap_notify ev)) (root screen)) as [E|E];
      simpl.
    + split; [apply last_snoc|]. exists []. split; [reflexivity|].
      split; intros _; [exact E|reflexivity].
    + split; [apply last_snoc|].
      exists [Remove_client c true; Arrange_windows]. split.
      * rewrite <- !app_assoc. reflexivity.
      * split; [discriminate|contradiction].
  - intros H. unfold unmap_event. rewrite H. reflexivity.
Qed.

Lemma unmap_event_info_witness :
  last (calls (unmap_event Sample.screen (Sample.event 18 7 1 0 0) Sample.managed))
  = Some Howm_info
  /\ unmap_event Sample.screen (Sample.event 18 9 9 0 0) Sample.managed
     = Sample.managed.
Proof.
  split.
  - apply (proj1 (unmap_event_info Sample.screen (Sample.event 18 7 1 0 0)
                    Sample.managed) O eq_refl).
  - apply (proj2 (unmap_event_info Sample.screen (Sample.event 18 9 9 0 0)
                    Sample.managed) eq_refl).
Defined.

(** *** Client messages *)

Lemma calls_since_app (st st' : wm_state) (made : list call) :
  calls st' = calls st ++ made -> calls_since st st' = made.
Proof. intros H. unfold calls_since. rewrite H. apply drop_app_length. Qed.

(** C7: a client message of type [_NET_CURRENT_DESKTOP] whose index is not
    below the workspace count of the focused monitor makes no call of
    [index_to_workspace] or [change_ws]; and whenever [client_message_event]
    makes such a call, its argument is the requested index, that index is
    below the workspace count, and the window is managed. *)
Theorem client_message_event_desktop_bounds (ewmh : ewmh_atoms)
  (ev : xcb_generic_event_t) (st : wm_state) :
  let cm := as_client_message ev in
  let made := calls_since st (client_message_event ewmh ev st) in
  (cm_type cm = _NET_CURRENT_DESKTOP ewmh ->
   workspace_cnt (mon st) <= data32_0 cm ->
   forall i, ~ In (Index_to_workspace i) made /\ ~ In (Change_ws i) made)
  /\ (forall i, In (Index_to_workspace i) made \/ In (Change_ws i) made ->
        i = data32_0 cm
        /\ data32_0 cm < workspace_cnt (mon st)
        /\ cm_type cm = _NET_CURRENT_DESKTOP ewmh
        /\ is_Some (find_client_by_win (cm_window cm) st)).
Proof.
  intros cm made.
  assert (Hmade : forall i,
    In (Index_to_workspace i) made \/ In (Change_ws i) made ->
    i = data32_0 cm
    /\ data32_0 cm < workspace_cnt (mon st)
    /\ cm_type cm = _NET_CURRENT_DESKTOP ewmh
    /\ is_Some (find_client_by_win (cm_window cm) st)).
  { subst made. unfold client_message_event. fold cm.
    destruct (find_client_by_win (cm_window cm) st) as [c|] eqn:Hc.
    - destruct (cm_type cm =? _NET_WM_STATE ewmh).
      { destruct (negb (data32_2 cm =? 0)).
        - erewrite calls_since_app
            by (simpl; rewrite <- app_assoc; reflexivity).
          intros i [[H|[H|[]]]|[H|[H|[]]]]; discriminate.
        - erewrite calls_since_app by reflexivity.
          intros i [[H|[]]|[H|[]]]; discriminate. }
      destruct (cm_type cm =? _NET_CLOSE_WINDOW ewmh).
      { erewrite calls_since_app
          by (simpl; rewrite <- app_assoc; reflexivity).
        intros i [[H|[H|[]]]|[H|[H|[]]]]; discriminate. }
      destruct (cm_type cm =? _NET_ACTIVE_WINDOW ewmh).
      { erewrite calls_since_app by reflexivity.
        intros i [[H|[]]|[H|[]]]; discriminate. }
      destruct (Z.eqb_spec (cm_type cm) (_NET_CURRENT_DESKTOP ewmh)) as [Ht|Ht];
        simpl.
      + destruct (Z.ltb_spec (data32_0 cm) (workspace_cnt (mon st))) as [Hlt|Hge].
        * erewrite calls_since_app
            by (simpl; rewrite <- app_assoc; reflexivity).
          intros i [[H|[H|[]]]|[H|[H|[]]]]; try discriminate;
            injection H as <-; repeat split; try assumption; eexists; reflexivity.
        * erewrite calls_since_app by (simpl; symmetry; apply app_nil_r).
          intros i [[]|[]].
      + erewrite calls_since_app by (simpl; symmetry; apply app_nil_r).
        intros i [[]|[]].
    - erewrite calls_since_app by (simpl; symmetry; apply app_nil_r).
      intros i [[]|[]]. }
  split; [|exact Hmade].
  intros _ Hge i. split; intros H.
  - destruct (Hmade i (or_introl H)) as (_ & Hlt & _). lia.
  - destruct (Hmade i (or_intror H)) as (_ & Hlt & _). lia.
Qed.

Lemma client_message_event_desktop_bounds_witness :
  (forall i,
     ~ In (Index_to_workspace i)
         (calls_since Sample.managed
            (client_message_event Sample.ewmh (Sample.event 33 7 7 312 5)
               Sample.managed))
     /\ ~ In (Change_ws i)
           (calls_since Sample.managed
              (client_message_event Sample.ewmh (Sample.event 33 7 7 312 5)
                 Sample.managed)))
  /\ (3 = 3 /\ 3 < 5 /\ 312 = 312
      /\ is_Some (find_client_by_win 7 Sample.managed)).
Proof.
  split.
  - apply (proj1 (client_message_event_desktop_bounds Sample.ewmh
                    (Sample.event 33 7 7 312 5) Sample.managed)).
    + reflexivity.
    + simpl. lia.
  - apply (proj2 (client_message_event_desktop_bounds Sample.ewmh
                    (Sample.event 33 7 7 312 3) Sample.managed) 3).
    right. simpl. right. left. reflexivity.
Defined.

(** *** Dispatch *)

(** The kind an event is dispatched on: [response_type] without the bit
    0x80 that marks a synthetic event. *)
Lemma response_type_masked (rt : Z) :
  is_uint8 rt -> Z.land rt (Z.lnot 128) = if rt <? 128 then rt else rt - 128.
Proof.
  unfold is_uint8. intros H.
  assert (Hc : forall n, (0 <= n < 256)%nat ->
            Z.land (Z.of_nat n) (Z.lnot 128)
            = if Z.of_nat n <? 128 then Z.of_nat n else Z.of_nat n - 128).
  { intros n Hn. do 256 (destruct n as [|n]; [vm_compute; reflexivity|]). lia. }
  rewrite <- (Z2Nat.id rt) by lia. apply Hc. lia.
Qed.

(** The routing of [handle_event], kind by kind. *)
Lemma handle_event_routes (conf : config) (ewmh : ewmh_atoms)
  (screen : xcb_screen_t) (X : xserver) (ev : xcb_generic_event_t)
  (st : wm_state) :
  let kind := Z.land (response_type ev) (Z.lnot 128) in
  handle_event conf ewmh screen X ev st
  = if kind =? 4 then button_press_event conf ev st
    else if kind =? 20 then map_event conf ewmh X ev st
    else if kind =? 17 then destroy_event ev st
    else if kind =? 7 then enter_event conf X ev st
    else if kind =? 22 then configure_event conf ev st
    else if kind =? 18 then unmap_event screen ev st
    else if kind =? 33 then client_message_event ewmh ev st
    else unhandled_event ev st.
Proof. reflexivity. Qed.

(** C2, where the code departs from it: a configure-request event (kind
    23, with or without the synthetic bit) reaches none of the seven
    handlers, [handle_event] runs [unhandled_event] on it, which only logs;
    and an event of kind 22, configure-notify, which is not one of the seven
    kinds, is given to [configure_event], which configures the window and
    re-runs the layout. *)
Theorem handle_event_configure_kinds (conf : config) (ewmh : ewmh_atoms)
  (screen : xcb_screen_t) (X : xserver) (ev : xcb_generic_event_t)
  (st : wm_state) :
  (response_type ev = XCB_CONFIGURE_REQUEST
   \/ response_type ev = XCB_CONFIGURE_REQUEST + 128 ->
     handle_event conf ewmh screen X ev st = unhandled_event ev st
     /\ clients (handle_event conf ewmh screen X ev st) = clients st
     /\ calls_since st (handle_event conf ewmh screen X ev st) = [])
  /\ (response_type ev = XCB_CONFIGURE_NOTIFY
      \/ response_type ev = XCB_CONFIGURE_NOTIFY + 128 ->
        handle_event conf ewmh screen X ev st = configure_event conf ev st
        /\ calls_since st (handle_event conf ewmh screen X ev st)
           = [Xcb_configure_window (ce_window (as_configure_request ev))
                (ce_value_mask (as_configure_request ev))
                (fst (configure_event_vals conf (as_configure_request ev)
                        (mon st)));
              Arrange_windows]).
Proof.
  split; intros [H|H]; rewrite handle_event_routes, H; simpl.
  - repeat split. apply calls_since_app. simpl. symmetry. apply app_nil_r.
  - repeat split. apply calls_since_app. simpl. symmetry. apply app_nil_r.
  - split; [reflexivity|]. apply calls_since_app. simpl.
    rewrite <- app_assoc. reflexivity.
  - split; [reflexivity|]. apply calls_since_app. simpl.
    rewrite <- app_assoc. reflexivity.
Qed.

Lemma handle_event_configure_kinds_witness :
  calls (handle_event Sample.conf Sample.ewmh Sample.screen Sample.plain
           (Sample.event 23 7 7 0 0) Sample.managed) = []
  /\ calls (handle_event Sample.conf Sample.ewmh Sample.screen Sample.plain
              (Sample.event 22 7 7 0 0) Sample.managed)
     = [Xcb_configure_window 7 15 [5; 30; 1918; 600; 0; 0; 0]; Arrange_windows].
Proof.
  split.
  - apply (proj2 (proj2 (proj1 (handle_event_configure_kinds Sample.conf
       Sample.ewmh Sample.screen Sample.plain (Sample.event 23 7 7 0 0)
       Sample.managed) (or_introl eq_refl)))).
  - apply (proj2 (proj2 (handle_event_configure_kinds Sample.conf
       Sample.ewmh Sample.screen Sample.plain (Sample.event 22 7 7 0 0)
       Sample.managed) (or_introl eq_refl))).
Defined.

(** *** Configure requests *)

Lemma c_and_set_testbit (k mask : Z) :
  0 <= k -> c_and_set (2 ^ k) mask = Z.testbit mask k.
Proof.
  intros Hk. unfold c_and_set.
  destruct (Z.testbit mask k) eqn:Hb.
  - apply negb_true_iff, Z.eqb_neq. intros H0.
    assert (Hk' : Z.testbit (Z.land (2 ^ k) mask) k = true).
    { rewrite Z.land_spec, Z.pow2_bits_true, Hb by exact Hk. reflexivity. }
    rewrite H0, Z.bits_0 in Hk'. discriminate.
  - apply negb_false_iff, Z.eqb_eq, Z.bits_inj'. intros n Hn.
    rewrite Z.land_spec, Z.bits_0, Z.pow2_bits_eqb by exact Hk.
    destruct (Z.eqb_spec k n) as [->|_]; [|reflexivity].
    rewrite Hb. reflexivity.
Qed.

Lemma vals_inv_init : vals_inv (replicate 7 0, O) [] 0.
Proof. unfold vals_inv. simpl. repeat split. lia. Qed.

(** One test of [configure_event] followed by its store. *)
Lemma vals_inv_step (b : bool) (v : Z) (s : list Z * nat) (acc : list Z)
  (k : nat) :
  (k < 7)%nat -> vals_inv s acc k ->
  vals_inv (if b then store v s else s) (acc ++ (if b then [v] else [])) (S k).
Proof.
  intros Hk (Hlen & Hi & Htake & Hacc). destruct b.
  - unfold vals_inv, store. simpl.
    rewrite length_insert, length_app, map_app. simpl.
    repeat split; [exact Hlen|lia| |lia].
    rewrite (take_S_r _ _ (to_uint32 v)).
    + rewrite take_insert_ge by lia. rewrite Htake. reflexivity.
    + apply list_lookup_insert_eq. lia.
  - rewrite app_nil_r. unfold vals_inv.
    split; [exact Hlen|split; [exact Hi|split; [exact Htake|lia]]].
Qed.

Lemma min_ternary (a b : Z) : (if a <? b then a else b) = Z.min a b.
Proof. destruct (Z.ltb_spec a b); lia. Qed.

(** The array and the index of [configure_event] against the
    specification's value list. *)
Lemma configure_event_vals_spec (conf : config)
  (ce : xcb_configure_request_event_t) (m : monitor_t) :
  vals_inv (configure_event_vals conf ce m) (configure_spec conf ce m) 7.
Proof.
  unfold configure_event_vals, configure_spec.
  rewrite !min_ternary.
  change XCB_CONFIG_WINDOW_X with (2 ^ 0).
  change XCB_CONFIG_WINDOW_Y with (2 ^ 1).
  change XCB_CONFIG_WINDOW_WIDTH with (2 ^ 2).
  change XCB_CONFIG_WINDOW_HEIGHT with (2 ^ 3).
  change XCB_CONFIG_WINDOW_BORDER_WIDTH with (2 ^ 4).
  change XCB_CONFIG_WINDOW_SIBLING with (2 ^ 5).
  change XCB_CONFIG_WINDOW_STACK_MODE with (2 ^ 6).
  rewrite !c_and_set_testbit by lia.
  rewrite !Z.log2_pow2 by lia.
  replace (ce_y ce + (if bar_bottom conf then 0 else bar_height (ws m)))
    with (if bar_bottom conf then ce_y ce else ce_y ce + bar_height (ws m))
    by (destruct (bar_bottom conf); lia).
  rewrite !app_assoc.
  do 6 (apply vals_inv_step; [lia|]).
  apply (vals_inv_step _ _ _ [] 0); [lia|apply vals_inv_init].
Qed.

Lemma to_uint32_id (v : Z) : is_uint32 v -> to_uint32 v = v.
Proof. unfold is_uint32, to_uint32. intros H. apply Z.mod_small. lia. Qed.

Lemma map_to_uint32_id (l : list Z) :
  Forall is_uint32 l -> map to_uint32 l = l.
Proof.
  induction 1 as [|v l Hv _ IH]; simpl; [reflexivity|].
  rewrite to_uint32_id, IH by exact Hv. reflexivity.
Qed.

(** C6: [configure_event] configures the window with the request's mask and
    a value list whose first words are, converted to [uint32_t] by the
    store, the specification's values and no others: the fields whose mask
    bit is set, in the order x, y, width, height, border width, sibling,
    stack mode, with width and height the minimum of the request and the
    monitor's less [border_px], y moved by the bar height unless the bar is
    at the bottom, and the other fields as requested; it then re-runs the
    layout.  Where the requested position is not negative and the border
    fits the monitor, with every field within its C type, the words are
    the values themselves. *)
Theorem configure_event_honours_mask (conf : config)
  (ev : xcb_generic_event_t) (st : wm_state) :
  let ce := as_configure_request ev in
  let spec := configure_spec conf ce (mon st) in
  exists vals,
    calls_since st (configure_event conf ev st)
    = [Xcb_configure_window (ce_window ce) (ce_value_mask ce) vals;
       Arrange_windows]
    /\ length vals = 7%nat
    /\ take (length spec) vals = map to_uint32 spec
    /\ (0 <= ce_x ce < 2 ^ 15 -> 0 <= ce_y ce < 2 ^ 15 ->
        is_uint16 (ce_width ce) -> is_uint16 (ce_height ce) ->
        is_uint16 (ce_border_width ce) -> is_uint32 (ce_sibling ce) ->
        is_uint8 (ce_stack_mode ce) ->
        is_uint16 (bar_height (ws (mon st))) ->
        0 <= border_px conf <= rect_width (mon_rect (mon st)) ->
        border_px conf <= rect_height (mon_rect (mon st)) ->
        take (length spec) vals = spec).
Proof.
  intros ce spec.
  destruct (configure_event_vals_spec conf ce (mon st))
    as (Hlen & Hi & Htake & _).
  exists (fst (configure_event_vals conf ce (mon st))).
  fold spec in Hi, Htake. rewrite <- Hi.
  split; [|split; [exact Hlen|split; [exact Htake|]]].
  { apply calls_since_app. unfold configure_event. simpl.
    rewrite <- app_assoc. reflexivity. }
  intros Hx Hy Hw Hh Hb Hs Hm Hbar Hpx Hpy. rewrite Htake.
  apply map_to_uint32_id.
  subst spec. unfold configure_spec. fold ce.
  rewrite !Forall_app. repeat split;
    (match goal with
     | |- Forall _ (if ?b then _ else _) => destruct b
     end;
     [apply List.Forall_cons; [|apply List.Forall_nil] | apply List.Forall_nil]);
    unfold is_uint32, is_uint16, is_uint8 in *;
    try destruct (bar_bottom conf); lia.
Qed.

Lemma configure_event_honours_mask_witness :
  exists vals,
    calls_since Sample.managed
      (configure_event Sample.conf (Sample.event 22 7 7 0 0) Sample.managed)
    = [Xcb_configure_window 7 15 vals; Arrange_windows]
    /\ take 4 vals = [5; 10 + 20; Z.min 4000 (1920 - 2); Z.min 600 (1080 - 2)].
Proof.
  destruct (configure_event_honours_mask Sample.conf (Sample.event 22 7 7 0 0)
              Sample.managed) as (vals & Hcalls & _ & _ & Hexact).
  exists vals. split; [exact Hcalls|].
  apply Hexact; unfold is_uint16, is_uint32, is_uint8; simpl; lia.
Defined.

(** *** Map requests *)

Lemma lookup_last (l : list client_t) (cl : client_t) :
  (l ++ [cl]) !! length l = Some cl.
Proof. apply list_lookup_middle. reflexivity. Qed.

Lemma alter_last (f : client_t -> client_t) (l : list client_t) (cl : client_t) :
  alter f (length l) (l ++ [cl]) = l ++ [f cl].
Proof.
  rewrite <- (Nat.add_0_r (length l)) at 1. rewrite alter_app_r. reflexivity.
Qed.

Lemma delete_last (l : list client_t) (cl : client_t) :
  delete (length l) (l ++ [cl]) = l.
Proof. rewrite delete_middle. apply app_nil_r. Qed.

Lemma deref_last (l : list client_t) (cl : client_t) (m : monitor_t)
  (cs : list call) (lg : list log_entry) :
  deref (length l) {| clients := l ++ [cl]; mon := m; calls := cs; logs := lg |}
  = cl.
Proof. unfold deref. simpl. rewrite lookup_last. reflexivity. Qed.

Lemma write_last (f : client_t -> client_t) (l : list client_t) (cl : client_t)
  (m : monitor_t) (cs : list call) (lg : list log_entry) :
  write (length l) f
    {| clients := l ++ [cl]; mon := m; calls := cs; logs := lg |}
  = {| clients := l ++ [f cl]; mon := m; calls := cs; logs := lg |}.
Proof. unfold write, with_clients. simpl. rewrite alter_last. reflexivity. Qed.

Lemma log_info_explicit (fmt : string) (args : list Z) (l : list client_t)
  (m : monitor_t) (cs : list call) (lg : list log_entry) :
  log_info fmt args {| clients := l; mon := m; calls := cs; logs := lg |}
  = {| clients := l; mon := m; calls := cs;
       logs := lg ++ [Log_info fmt args] |}.
Proof. reflexivity. Qed.

Lemma create_client_explicit (conf : config) (w : xcb_window_t)
  (l : list client_t) (m : monitor_t) (cs : list call) (lg : list log_entry) :
  create_client conf w {| clients := l; mon := m; calls := cs; logs := lg |}
  = (length l,
     {| clients := l ++ [new_client conf w]; mon := m;
        calls := cs ++ [Create_client w]; logs := lg |}).
Proof. reflexivity. Qed.

(** The loop over the type atoms, run on the client just created: a dock or
    toolbar atom anywhere in the list maps the window, removes the client
    and returns; otherwise the client floats exactly when one of the atoms
    is of a floating type. *)
Lemma map_event_types_last (ewmh : ewmh_atoms) (atoms : list xcb_atom_t)
  (l : list client_t) (cl : client_t) (m : monitor_t) (cs : list call)
  (lg : list log_entry) :
  map_event_types ewmh (length l) atoms
    {| clients := l ++ [cl]; mon := m; calls := cs; logs := lg |}
  = if existsb (is_dock_type ewmh) atoms
    then inl {| clients := l; mon := m;
                calls := cs ++ [Xcb_map_window (win cl);
                                Remove_client (length l) false];
                logs := lg |}
    else inr {| clients := l ++ [if existsb (is_floating_type ewmh) atoms
                                 then set_is_floating true cl else cl];
                mon := m; calls := cs; logs := lg |}.
Proof.
  revert cl. induction atoms as [|a atoms IH]; intros cl; simpl.
  - reflexivity.
  - destruct (is_dock_type ewmh a); simpl.
    + rewrite deref_last. unfold remove_client, xcb_map_window, do_call,
        with_clients. simpl. rewrite delete_last, <- app_assoc. reflexivity.
    + destruct (is_floating_type ewmh a); simpl.
      * rewrite write_last, IH.
        destruct (existsb (is_dock_type ewmh) atoms); [reflexivity|].
        destruct (existsb (is_floating_type ewmh) atoms); reflexivity.
      * apply IH.
Qed.

Lemma map_event_guard_false (X : xserver) (w : xcb_window_t) (st : wm_state) :
  map_event_guard X w st = false <->
  (exists wa, xcb_get_window_attributes_reply X w = Some wa
              /\ override_redirect wa = 0)
  /\ find_client_by_win w st = None.
Proof.
  unfold map_event_guard.
  destruct (xcb_get_window_attributes_reply X w) as [wa|].
  - rewrite orb_false_iff, negb_false_iff, Z.eqb_eq, bool_decide_eq_false.
    split.
    + intros [H1 H2]. split; [exists wa; split; [reflexivity|exact H1]|].
      destruct (find_client_by_win w st); [|reflexivity].
      exfalso. apply H2. eexists. reflexivity.
    + intros [(wa' & [= <-] & H1) H2]. split; [exact H1|].
      rewrite H2. intros [? [=]].
  - split; [discriminate|]. intros [(wa & [=] & _) _].
Qed.

(** A map request that passes the guard, for a window with a dock or
    toolbar atom. *)
Lemma map_event_dock (conf : config) (ewmh : ewmh_atoms) (X : xserver)
  (ev : xcb_generic_event_t) (st : wm_state) :
  let w := me_window (as_map_request ev) in
  map_event_guard X w st = false ->
  existsb (is_dock_type ewmh) (type_atoms X w) = true ->
  map_event conf ewmh X ev st
  = {| clients := clients st; mon := mon st;
       calls := calls st ++ [Create_client w; Xcb_map_window w;
                             Remove_client (length (clients st)) false];
       logs := logs st ++ [Log_info "Mapping request for window <0x%x>" [w]] |}.
Proof.
  intros w Hg Hd. destruct st as [l m cs lg]. unfold map_event. fold w.
  rewrite Hg. unfold type_atoms in Hd.
  unfold create_client, log_info, do_call, with_clients. simpl.
  destruct (xcb_ewmh_get_wm_window_type_reply X w) as [atoms|];
    [|discriminate].
  simpl in Hd. rewrite map_event_types_last, Hd. simpl.
  rewrite <- app_assoc. reflexivity.
Qed.

(** A map request that passes the guard, for a window without a dock or
    toolbar atom: the client created stays in the list, with the flags and
    the rectangle given below, and the handler goes on to the layout, the
    mapping, the focus and the button grab. *)
Lemma map_event_kept (conf : config) (ewmh : ewmh_atoms) (X : xserver)
  (ev : xcb_generic_event_t) (st : wm_state) :
  let w := me_window (as_map_request ev) in
  let c := length (clients st) in
  map_event_guard X w st = false ->
  existsb (is_dock_type ewmh) (type_atoms X w) = false ->
  exists cl lg,
    map_event conf ewmh X ev st
    = {| clients := clients st ++ [cl]; mon := mon st;
         calls := calls st ++ [Create_client w; Arrange_windows;
                               Xcb_map_window w;
                               Update_focused_client (Some c);
                               Grab_buttons c];
         logs := logs st ++ lg |}
    /\ win cl = w
    /\ is_transient cl = negb (transient_for X w =? 0)
    /\ is_floating cl
       = existsb (is_floating_type ewmh) (type_atoms X w) || is_transient cl
    /\ rect cl
       = match xcb_get_geometry_reply X w with
         | Some geom =>
             if is_floating cl then
               let width := if 1 <? geom_width geom then geom_width geom
                            else float_spawn_width conf in
               let height := if 1 <? geom_height geom then geom_height geom
                             else float_spawn_height conf in
               {| rect_x := if center_floating conf
                            then to_int16 (rect_width (mon_rect (mon st)) ÷ 2
                                           - width ÷ 2)
                            else geom_x geom;
                  rect_y := if center_floating conf
                            then to_int16 ((rect_height (mon_rect (mon st))
                                            - bar_height (ws (mon st))
                                            - height) ÷ 2)
                            else geom_y geom;
                  rect_width := width;
                  rect_height := height |}
             else rect (new_client conf w)
         | None => rect (new_client conf w)
         end.
Proof.
  intros w c Hg Hd. subst c. destruct st as [l m cs lg].
  unfold map_event. fold w. rewrite Hg.
  unfold type_atoms, transient_for in *.
  assert (Hloop :
    match xcb_ewmh_get_wm_window_type_reply X w with
    | Some atoms =>
        map_event_types ewmh (length l) atoms
          {| clients := l ++ [new_client conf w]; mon := m;
             calls := cs ++ [Create_client w];
             logs := lg ++ [Log_info "Mapping request for window <0x%x>" [w]] |}
    | None =>
        inr {| clients := l ++ [new_client conf w]; mon := m;
               calls := cs ++ [Create_client w];
               logs := lg ++ [Log_info "Mapping request for window <0x%x>" [w]] |}
    end
    = inr {| clients :=
               l ++ [if existsb (is_floating_type ewmh)
                          (default [] (xcb_ewmh_get_wm_window_type_reply X w))
                     then set_is_floating true (new_client conf w)
                     else new_client conf w];
             mon := m; calls := cs ++ [Create_client w];
             logs := lg ++ [Log_info "Mapping request for window <0x%x>" [w]] |}).
  { destruct (xcb_ewmh_get_wm_window_type_reply X w) as [atoms|]; simpl in *.
    - rewrite map_event_types_last, Hd. reflexivity.
    - reflexivity. }
  rewrite log_info_explicit, create_client_explicit.
  lazy beta iota zeta. rewrite Hloop. clear Hloop.
  rewrite write_last.
  destruct (existsb (is_floating_type ewmh)
              (default [] (xcb_ewmh_get_wm_window_type_reply X w)));
    destruct (default 0 (xcb_icccm_get_wm_transient_for_reply X w) =? 0);
    destruct (xcb_get_geometry_reply X w) as [geom|];
    unfold map_event_geometry, log_info;
    repeat first [rewrite write_last | rewrite deref_last
                 | progress cbn [clients mon calls logs negb orb is_floating
                                 is_transient set_is_floating set_is_transient
                                 new_client set_rect rect win]];
    unfold arrange_windows, xcb_map_window, update_focused_client,
      grab_buttons, do_call;
    repeat first [rewrite deref_last
                 | progress cbn [clients mon calls logs win]];
    rewrite <- ?app_assoc;
    (do 2 eexists; split; [reflexivity|]);
    cbn; repeat split; reflexivity.
Qed.

(** A map request for an unmanaged window leaves a client for it in the
    list only on the path of [map_event_kept]. *)
Lemma map_event_produces (conf : config) (ewmh : ewmh_atoms) (X : xserver)
  (ev : xcb_generic_event_t) (st : wm_state) (c : nat) :
  let w := me_window (as_map_request ev) in
  find_client_by_win w st = None ->
  find_client_by_win w (map_event conf ewmh X ev st) = Some c ->
  map_event_guard X w st = false
  /\ existsb (is_dock_type ewmh) (type_atoms X w) = false
  /\ c = length (clients st).
Proof.
  intros w Hnone Hsome.
  destruct (map_event_guard X w st) eqn:Hg.
  { unfold map_event in Hsome. fold w in Hsome. rewrite Hg in Hsome.
    congruence. }
  destruct (existsb (is_dock_type ewmh) (type_atoms X w)) eqn:Hd.
  { rewrite (map_event_dock conf ewmh X ev st Hg Hd) in Hsome.
    unfold find_client_by_win in *. simpl in Hsome. fold w in Hsome.
    congruence. }
  split; [reflexivity|split; [reflexivity|]].
  destruct (map_event_kept conf ewmh X ev st Hg Hd) as (cl & lg & Heq & Hw & _).
  rewrite Heq in Hsome. unfold find_client_by_win in *. simpl in Hsome.
  fold w in Hw. rewrite (find_win_snoc w _ cl Hnone Hw) in Hsome.
  congruence.
Qed.

(** C3: [map_event] changes nothing when the attribute query fails, when
    the window declares override-redirect, or when the window is already
    managed.  So once a map request has made a client for a window, a second
    map request for that window, whatever the server then answers, is a
    no-op and the list keeps exactly one client for the window; and from a
    state where the window is unmanaged no two map requests leave more than
    one client for it. *)
Theorem map_event_idempotent (conf : config) (ewmh : ewmh_atoms)
  (X X' : xserver) (ev ev' : xcb_generic_event_t) (st : wm_state) :
  let w := me_window (as_map_request ev) in
  let st1 := map_event conf ewmh X ev st in
  (xcb_get_window_attributes_reply X w = None
   \/ (exists wa, xcb_get_window_attributes_reply X w = Some wa
                  /\ override_redirect wa <> 0)
   \/ is_Some (find_client_by_win w st) ->
   st1 = st)
  /\ (me_window (as_map_request ev') = w ->
      find_client_by_win w st = None ->
      (is_Some (find_client_by_win w st1) ->
         count_win w (clients st1) = 1%nat
         /\ map_event conf ewmh X' ev' st1 = st1)
      /\ (count_win w (clients (map_event conf ewmh X' ev' st1)) <= 1)%nat).
Proof.
  intros w st1. split.
  - intros H. subst st1. unfold map_event. fold w.
    replace (map_event_guard X w st) with true; [reflexivity|].
    symmetry. unfold map_event_guard.
    destruct H as [H|[(wa & H & Ho)|H]].
    + rewrite H. reflexivity.
    + rewrite H. apply Z.eqb_neq in Ho. rewrite Ho. reflexivity.
    + destruct (xcb_get_window_attributes_reply X w); [|reflexivity].
      rewrite (bool_decide_eq_true_2 _ H). apply orb_true_r.
  - intros Hw' Hnone.
    assert (Hnoop : is_Some (find_client_by_win w st1) ->
                    map_event conf ewmh X' ev' st1 = st1).
    { intros Hs. unfold map_event. rewrite Hw'. unfold map_event_guard.
      destruct (xcb_get_window_attributes_reply X' w); [|reflexivity].
      rewrite (bool_decide_eq_true_2 _ Hs), orb_true_r. reflexivity. }
    assert (Hcount : forall Y e s,
              me_window (as_map_request e) = w ->
              find_client_by_win w s = None ->
              let s1 := map_event conf ewmh Y e s in
              (find_client_by_win w s1 = None /\ count_win w (clients s1) = O)
              \/ (is_Some (find_client_by_win w s1)
                  /\ count_win w (clients s1) = 1%nat)).
    { intros Y e s He Hn s1.
      destruct (find_client_by_win w s1) as [c|] eqn:Hf.
      - right. split; [eexists; reflexivity|].
        subst s1. rewrite <- He in Hf, Hn.
        destruct (map_event_produces conf ewmh Y e s c Hn Hf) as (Hg & Hd & _).
        destruct (map_event_kept conf ewmh Y e s Hg Hd)
          as (cl & lg & Heq & Hwin & _).
        rewrite Heq. simpl. rewrite He in Hwin, Hn.
        rewrite (count_win_snoc w _ cl Hwin).
        rewrite (count_win_None w _ Hn). reflexivity.
      - left. split; [reflexivity|]. apply count_win_None. exact Hf. }
    destruct (Hcount X ev st eq_refl Hnone) as [[Hn1 Hc1]|[Hs1 Hc1]];
      fold st1 in Hn1 || fold st1 in Hs1; fold st1 in Hc1.
    + split.
      * intros [c Hc]. congruence.
      * destruct (Hcount X' ev' st1 Hw' Hn1) as [[_ Hc2]|[_ Hc2]];
          rewrite Hc2; lia.
    + split.
      * intros _. split; [exact Hc1|exact (Hnoop Hs1)].
      * rewrite (Hnoop Hs1), Hc1. lia.
Qed.

Lemma map_event_idempotent_witness :
  map_event Sample.conf Sample.ewmh Sample.plain (Sample.event 20 7 7 0 0)
    Sample.managed = Sample.managed
  /\ (let st1 := map_event Sample.conf Sample.ewmh Sample.plain
                   (Sample.event 20 7 7 0 0) Sample.empty in
      count_win 7 (clients st1) = 1%nat
      /\ map_event Sample.conf Sample.ewmh
           (Sample.server (Some [308]) (Some 3) None)
           (Sample.event 20 7 1 0 0) st1 = st1).
Proof.
  split.
  - apply (proj1 (map_event_idempotent Sample.conf Sample.ewmh Sample.plain
                    Sample.plain (Sample.event 20 7 7 0 0)
                    (Sample.event 20 7 7 0 0) Sample.managed)).
    right. right. exists O. reflexivity.
  - apply (proj1 (proj2 (map_event_idempotent Sample.conf Sample.ewmh
                           Sample.plain
                           (Sample.server (Some [308]) (Some 3) None)
                           (Sample.event 20 7 7 0 0) (Sample.event 20 7 1 0 0)
                           Sample.empty) eq_refl eq_refl)).
    exists O. reflexivity.
Defined.

(** C5: a map request that passes the guard, for a window whose type atom
    list holds [_NET_WM_WINDOW_TYPE_DOCK] or [_NET_WM_WINDOW_TYPE_TOOLBAR]
    (at any place, so also as the first atom that matches), maps the window,
    removes the client just created and returns: the calls made are
    [create_client], [xcb_map_window] and [remove_client] and no other, the
    client list is as before, and no client for the window is in it. *)
Theorem map_event_dock_excluded (conf : config) (ewmh : ewmh_atoms)
  (X : xserver) (ev : xcb_generic_event_t) (st : wm_state)
  (wa : xcb_get_window_attributes_reply_t) (atoms : list xcb_atom_t)
  (a : xcb_atom_t) :
  let w := me_window (as_map_request ev) in
  let st' := map_event conf ewmh X ev st in
  xcb_get_window_attributes_reply X w = Some wa ->
  override_redirect wa = 0 ->
  find_client_by_win w st = None ->
  xcb_ewmh_get_wm_window_type_reply X w = Some atoms ->
  In a atoms ->
  a = _NET_WM_WINDOW_TYPE_DOCK ewmh \/ a = _NET_WM_WINDOW_TYPE_TOOLBAR ewmh ->
  calls_since st st'
  = [Create_client w; Xcb_map_window w;
     Remove_client (length (clients st)) false]
  /\ clients st' = clients st
  /\ find_client_by_win w st' = None.
Proof.
  intros w st' Hwa Ho Hnone Hty Hin Ha.
  assert (Hg : map_event_guard X w st = false).
  { apply map_event_guard_false. split; [exists wa; split; assumption|].
    exact Hnone. }
  assert (Hd : existsb (is_dock_type ewmh) (type_atoms X w) = true).
  { unfold type_atoms. rewrite Hty. simpl. apply existsb_exists.
    exists a. split; [exact Hin|]. unfold is_dock_type.
    destruct Ha as [-> | ->]; rewrite Z.eqb_refl; [reflexivity|].
    apply orb_true_r. }
  subst st'. rewrite (map_event_dock conf ewmh X ev st Hg Hd).
  split; [apply calls_since_app; reflexivity|].
  split; [reflexivity|exact Hnone].
Qed.

Lemma map_event_dock_excluded_witness :
  let st' := map_event Sample.conf Sample.ewmh
               (Sample.server (Some [308; 301]) None None)
               (Sample.event 20 7 7 0 0) Sample.empty in
  calls_since Sample.empty st'
  = [Create_client 7; Xcb_map_window 7; Remove_client 0 false]
  /\ clients st' = []
  /\ find_client_by_win 7 st' = None.
Proof.
  apply (map_event_dock_excluded Sample.conf Sample.ewmh
           (Sample.server (Some [308; 301]) None None)
           (Sample.event 20 7 7 0 0) Sample.empty
           {| override_redirect := 0 |} [308; 301] 301);
    try reflexivity.
  - right. left. reflexivity.
  - left. reflexivity.
Defined.

(** C4: the client that a map request makes for a window with a
    transient-for target has its transient flag and its floating flag set
    when [map_event] returns, whatever the window's type atoms; and if
    every client of the list that is transient is floating before an event
    is handled, so it is afterwards. *)
Theorem map_event_transient_floats (conf : config) (ewmh : ewmh_atoms)
  (screen : xcb_screen_t) (X : xserver) (ev : xcb_generic_event_t)
  (st : wm_state) :
  let w := me_window (as_map_request ev) in
  let st' := map_event conf ewmh X ev st in
  (forall c t,
     find_client_by_win w st = None ->
     find_client_by_win w st' = Some c ->
     xcb_icccm_get_wm_transient_for_reply X w = Some t ->
     t <> 0 ->
     is_transient (deref c st') = true /\ is_floating (deref c st') = true)
  /\ (Forall (fun cl => is_transient cl = true -> is_floating cl = true)
        (clients st) ->
      Forall (fun cl => is_transient cl = true -> is_floating cl = true)
        (clients (handle_event conf ewmh screen X ev st))).
Proof.
  intros w st'. split.
  - intros c t Hnone Hsome Ht Ht0.
    destruct (map_event_produces conf ewmh X ev st c Hnone Hsome)
      as (Hg & Hd & ->).
    destruct (map_event_kept conf ewmh X ev st Hg Hd)
      as (cl & lg & Heq & _ & Htr & Hfl & _).
    subst st'. rewrite Heq, deref_last.
    fold w in Htr, Hfl. unfold transient_for in Htr. rewrite Ht in Htr.
    simpl in Htr. apply Z.eqb_neq in Ht0. rewrite Ht0 in Htr. simpl in Htr.
    rewrite Hfl, Htr. split; [reflexivity|apply orb_true_r].
  - intros Hinv.
    assert (Hmap : Forall
              (fun cl => is_transient cl = true -> is_floating cl = true)
              (clients st')).
    { subst st'. destruct (map_event_guard X w st) eqn:Hg.
      - unfold map_event. fold w. rewrite Hg. exact Hinv.
      - destruct (existsb (is_dock_type ewmh) (type_atoms X w)) eqn:Hd.
        + rewrite (map_event_dock conf ewmh X ev st Hg Hd). exact Hinv.
        + destruct (map_event_kept conf ewmh X ev st Hg Hd)
            as (cl & lg & Heq & _ & _ & Hfl & _).
          rewrite Heq. simpl. apply Forall_app. split; [exact Hinv|].
          apply List.Forall_cons; [|apply List.Forall_nil].
          intros Htr. rewrite Hfl, Htr. apply orb_true_r. }
    rewrite handle_event_routes. cbv zeta.
    case_ifs; try exact Hmap.
    + unfold button_press_event.
      case_ifs; exact Hinv.
    + unfold destroy_event.
      destruct (find_client_by_win _ st); [|exact Hinv].
      simpl. apply Forall_delete. exact Hinv.
    + unfold enter_event.
      case_ifs; exact Hinv.
    + exact Hinv.
    + unfold unmap_event.
      destruct (find_client_by_win _ st); [|exact Hinv].
      destruct (negb _); simpl; [apply Forall_delete|]; exact Hinv.
    + unfold client_message_event.
      destruct (find_client_by_win _ st); [|exact Hinv].
      case_ifs; simpl; try apply Forall_delete; exact Hinv.
    + exact Hinv.
Qed.

Lemma map_event_transient_floats_witness :
  let st' := map_event Sample.conf Sample.ewmh
               (Sample.server None (Some 3) None)
               (Sample.event 20 7 7 0 0) Sample.empty in
  (is_transient (deref 0 st') = true /\ is_floating (deref 0 st') = true)
  /\ Forall (fun cl => is_transient cl = true -> is_floating cl = true)
       (clients (handle_event Sample.conf Sample.ewmh Sample.screen
                   (Sample.server None (Some 3) None)
                   (Sample.event 20 7 7 0 0) Sample.empty)).
Proof.
  split.
  - apply (proj1 (map_event_transient_floats Sample.conf Sample.ewmh
                    Sample.screen (Sample.server None (Some 3) None)
                    (Sample.event 20 7 7 0 0) Sample.empty) O 3);
      [reflexivity|reflexivity|reflexivity|discriminate].
  - apply (proj2 (map_event_transient_floats Sample.conf Sample.ewmh
                    Sample.screen (Sample.server None (Some 3) None)
                    (Sample.event 20 7 7 0 0) Sample.empty)).
    apply List.Forall_nil.
Defined.

Lemma to_int16_id (z : Z) : is_int16 z -> to_int16 z = z.
Proof.
  unfold is_int16, to_int16. intros H.
  rewrite Z.mod_small by lia. lia.
Qed.

Lemma quot2_int16 (z : Z) : - 2 ^ 16 < z < 2 ^ 16 -> is_int16 (z ÷ 2).
Proof.
  unfold is_int16. intros H.
  pose proof (Z.quot_rem' z 2) as Hq.
  destruct (Z.le_gt_cases 0 z) as [Hz|Hz].
  - pose proof (Z.rem_bound_pos_pos z 2 ltac:(lia) Hz). lia.
  - pose proof (Z.rem_bound_pos_neg z 2 ltac:(lia) ltac:(lia)). lia.
Qed.

Lemma quot2_uint16 (z : Z) : is_uint16 z -> 0 <= z ÷ 2 < 2 ^ 15.
Proof.
  unfold is_uint16. intros H.
  pose proof (Z.quot_rem' z 2) as Hq.
  pose proof (Z.rem_bound_pos z 2 ltac:(lia) ltac:(lia)). lia.
Qed.

(** C8: when a map request makes a floating client and the geometry query
    is answered, the client's width is the reported width if that is
    greater than 1 and [conf.float_spawn_width] otherwise, and likewise its
    height; with [conf.center_floating] its position is
    x = monitor width / 2 - client width / 2 and
    y = (monitor height - bar height - client height) / 2, the divisions
    truncating; without it, the reported position.  The dimensions are
    taken within [uint16_t] and the bar no higher than the monitor. *)
Theorem map_event_floating_geometry (conf : config) (ewmh : ewmh_atoms)
  (X : xserver) (ev : xcb_generic_event_t) (st : wm_state) (c : nat)
  (geom : xcb_get_geometry_reply_t) :
  let w := me_window (as_map_request ev) in
  let st' := map_event conf ewmh X ev st in
  let cl := deref c st' in
  let m := mon st in
  find_client_by_win w st = None ->
  find_client_by_win w st' = Some c ->
  is_floating cl = true ->
  xcb_get_geometry_reply X w = Some geom ->
  is_uint16 (geom_width geom) -> is_uint16 (geom_height geom) ->
  is_uint16 (float_spawn_width conf) -> is_uint16 (float_spawn_height conf) ->
  is_uint16 (rect_width (mon_rect m)) -> is_uint16 (rect_height (mon_rect m)) ->
  0 <= bar_height (ws m) <= rect_height (mon_rect m) ->
  rect_width (rect cl)
  = (if 1 <? geom_width geom then geom_width geom else float_spawn_width conf)
  /\ rect_height (rect cl)
     = (if 1 <? geom_height geom then geom_height geom
        else float_spawn_height conf)
  /\ rect_x (rect cl)
     = (if center_floating conf
        then rect_width (mon_rect m) ÷ 2 - rect_width (rect cl) ÷ 2
        else geom_x geom)
  /\ rect_y (rect cl)
     = (if center_floating conf
        then (rect_height (mon_rect m) - bar_height (ws m)
              - rect_height (rect cl)) ÷ 2
        else geom_y geom).
Proof.
  intros w st' cl m Hnone Hsome Hfl Hgeom Hgw Hgh Hsw Hsh Hmw Hmh Hbar.
  destruct (map_event_produces conf ewmh X ev st c Hnone Hsome)
    as (Hg & Hd & ->).
  destruct (map_event_kept conf ewmh X ev st Hg Hd)
    as (cl' & lg & Heq & _ & _ & _ & Hrect).
  assert (Hcl : cl = cl').
  { subst cl st'. rewrite Heq. apply deref_last. }
  rewrite Hcl in *. clear Hcl. fold w in Hrect. rewrite Hgeom, Hfl in Hrect.
  cbv zeta in Hrect. fold m in Hrect. rewrite Hrect.
  cbn [rect_x rect_y rect_width rect_height].
  set (width := if 1 <? geom_width geom then geom_width geom
                else float_spawn_width conf).
  set (height := if 1 <? geom_height geom then geom_height geom
                 else float_spawn_height conf).
  assert (Hw : is_uint16 width)
    by (subst width; destruct (1 <? geom_width geom); assumption).
  assert (Hh : is_uint16 height)
    by (subst height; destruct (1 <? geom_height geom); assumption).
  split; [reflexivity|split; [reflexivity|]].
  destruct (center_floating conf); [|split; reflexivity].
  split; apply to_int16_id.
  - pose proof (quot2_uint16 _ Hmw). pose proof (quot2_uint16 _ Hw).
    unfold is_int16. lia.
  - apply quot2_int16. unfold is_uint16 in *. lia.
Qed.

Lemma map_event_floating_geometry_witness :
  let st' := map_event Sample.conf Sample.ewmh
               (Sample.server (Some [308]) None
                  (Some {| geom_x := 40; geom_y := 60;
                           geom_width := 1; geom_height := 1103 |}))
               (Sample.event 20 7 7 0 0) Sample.empty in
  rect_width (rect (deref 0 st')) = 500
  /\ rect_height (rect (deref 0 st')) = 1103
  /\ rect_x (rect (deref 0 st')) = 1920 ÷ 2 - 500 ÷ 2
  /\ rect_y (rect (deref 0 st')) = -21.
Proof.
  apply (map_event_floating_geometry Sample.conf Sample.ewmh
           (Sample.server (Some [308]) None
              (Some {| geom_x := 40; geom_y := 60;
                       geom_width := 1; geom_height := 1103 |}))
           (Sample.event 20 7 7 0 0) Sample.empty O
           {| geom_x := 40; geom_y := 60;
              geom_width := 1; geom_height := 1103 |});
    try reflexivity; unfold is_uint16; simpl; lia.
Defined.



(** ** Further properties of the handlers *)

(** *** Windows and lookups *)

Lemma find_win_windows (w : xcb_window_t) (l : list client_t) :
  is_Some (find_win w l) <-> w ∈ win <$> l.
Proof.
  induction l as [|a l IH]; simpl.
  - split; [intros [? [=]]|intros H; inversion H].
  - destruct (Z.eqb_spec (win a) w) as [E|E].
    + split; [intros _; rewrite E; left|intros _; eexists; reflexivity].
    + rewrite elem_of_cons, <- IH. split.
      * intros [i Hi]. right. destruct (find_win w l); [eexists; reflexivity|].
        discriminate.
      * intros [H|[i Hi]]; [congruence|]. rewrite Hi. eexists. reflexivity.
Qed.

Lemma find_win_not_windows (w : xcb_window_t) (l : list client_t) :
  find_win w l = None <-> w ∉ win <$> l.
Proof.
  rewrite <- find_win_windows. destruct (find_win w l) as [i|].
  - split; [discriminate|]. intros H. exfalso. apply H. eexists. reflexivity.
  - split; [|reflexivity]. intros _ [? [=]].
Qed.

(** Deleting the client found for a window, in a list without two clients
    for one window: that window is gone, the others stay. *)
Lemma delete_found (w : xcb_window_t) (l : list client_t) (c : nat) :
  NoDup (win <$> l) -> find_win w l = Some c ->
  (w ∉ win <$> delete c l)
  /\ forall w', w' <> w -> (w' ∈ win <$> delete c l <-> w' ∈ win <$> l).
Proof.
  intros Hnd Hf. destruct (find_win_lookup w l c Hf) as (cl & Hc & Hw).
  rewrite delete_take_drop.
  rewrite <- (take_drop_middle l c cl Hc) in Hnd at 1.
  rewrite fmap_app, fmap_cons, Hw in Hnd.
  apply NoDup_app in Hnd as (_ & Hdisj & Hnd2).
  apply NoDup_cons in Hnd2 as (Hnot & _).
  split.
  - rewrite fmap_app, elem_of_app. intros [H|H]; [|contradiction].
    apply (Hdisj w H). left.
  - intros w' Hne.
    rewrite <- (take_drop_middle l c cl Hc) at 3.
    rewrite !fmap_app, fmap_cons, !elem_of_app, elem_of_cons, Hw.
    split; [intros [H|H]; auto|intros [H|[H|H]]; auto; contradiction].
Qed.

Lemma find_win_bound (w : xcb_window_t) (l : list client_t) (c : nat) :
  find_win w l = Some c -> is_Some (l !! c).
Proof.
  intros H. destruct (find_win_lookup w l c H) as (cl & Hc & _).
  exists cl. exact Hc.
Qed.

(** *** Destroy *)

(** X1: [destroy_event] changes nothing, log included, for a window that is
    not managed.  For a managed one it removes the client found with the
    flag [true] and re-runs the layout, the list being one client shorter;
    if no window had two clients, the window is then unmanaged and every
    other window is managed after exactly if it was before. *)
Theorem destroy_event_unmanages (ev : xcb_generic_event_t) (st : wm_state) :
  let w := de_window (as_destroy_notify ev) in
  let st' := destroy_event ev st in
  (find_client_by_win w st = None -> st' = st)
  /\ (forall c, find_client_by_win w st = Some c ->
        calls_since st st' = [Remove_client c true; Arrange_windows]
        /\ S (length (clients st')) = length (clients st)
        /\ (NoDup (windows st) ->
            find_client_by_win w st' = None
            /\ forall w', w' <> w ->
                 (w' ∈ windows st' <-> w' ∈ windows st))).
Proof.
  intros w st'. subst st'. unfold destroy_event. fold w. split.
  - intros H. rewrite H. reflexivity.
  - intros c H. rewrite H. split; [|split].
    + apply calls_since_app. simpl. rewrite <- app_assoc. reflexivity.
    + simpl. rewrite length_delete by (apply (find_win_bound w); exact H).
      pose proof (lookup_lt_is_Some_1 _ _ (find_win_bound w _ c H)). lia.
    + intros Hnd. unfold find_client_by_win, windows. simpl.
      destruct (delete_found w (clients st) c Hnd H) as [H1 H2].
      split; [apply find_win_not_windows; exact H1|exact H2].
Qed.

Lemma destroy_event_unmanages_witness :
  destroy_event (Sample.event 17 9 9 0 0) Sample.managed = Sample.managed
  /\ calls_since Sample.managed
       (destroy_event (Sample.event 17 7 7 0 0) Sample.managed)
     = [Remove_client 0 true; Arrange_windows]
  /\ find_client_by_win 7
       (destroy_event (Sample.event 17 7 7 0 0) Sample.managed) = None.
Proof.
  split.
  - apply (proj1 (destroy_event_unmanages (Sample.event 17 9 9 0 0)
                    Sample.managed)). reflexivity.
  - destruct (proj2 (destroy_event_unmanages (Sample.event 17 7 7 0 0)
                       Sample.managed) O eq_refl) as (Hc & _ & Hu).
    split; [exact Hc|]. apply Hu. apply NoDup_singleton.
Defined.

(** *** Unmap *)

(** X2: when no window has two clients, an unmap-notify for a managed
    window that is not reported by the root window leaves that window
    unmanaged and every other window managed exactly if it was before;
    reported by the root window, it leaves the client list as it was. *)
Theorem unmap_event_unmanages (screen : xcb_screen_t)
  (ev : xcb_generic_event_t) (st : wm_state) (c : nat) :
  let w := ue_window (as_unmap_notify ev) in
  let st' := unmap_event screen ev st in
  NoDup (windows st) ->
  find_client_by_win w st = Some c ->
  (ue_event (as_unmap_notify ev) <> root screen ->
     find_client_by_win w st' = None
     /\ forall w', w' <> w -> (w' ∈ windows st' <-> w' ∈ windows st))
  /\ (ue_event (as_unmap_notify ev) = root screen ->
      clients st' = clients st /\ find_client_by_win w st' = Some c).
Proof.
  intros w st' Hnd H. subst st'.
  rewrite (unmap_event_managed screen ev st c H). split.
  - intros Hne. apply Z.eqb_neq in Hne. rewrite Hne.
    unfold find_client_by_win, windows. simpl.
    destruct (delete_found w (clients st) c Hnd H) as [H1 H2].
    split; [apply find_win_not_windows; exact H1|exact H2].
  - intros He. apply Z.eqb_eq in He. rewrite He. simpl.
    split; [reflexivity|exact H].
Qed.

Lemma unmap_event_unmanages_witness :
  find_client_by_win 7
    (unmap_event Sample.screen (Sample.event 18 7 7 0 0) Sample.managed) = None
  /\ find_client_by_win 7
       (unmap_event Sample.screen (Sample.event 18 7 1 0 0) Sample.managed)
     = Some O.
Proof.
  split.
  - apply (proj1 (unmap_event_unmanages Sample.screen (Sample.event 18 7 7 0 0)
                    Sample.managed O (NoDup_singleton _) eq_refl)).
    discriminate.
  - apply (proj2 (unmap_event_unmanages Sample.screen (Sample.event 18 7 1 0 0)
                    Sample.managed O (NoDup_singleton _) eq_refl)).
    reflexivity.
Defined.

(** *** Map requests and the clients already there *)


(** What a map request for an unmanaged window does to the client list: it
    leaves it as it was and the window unmanaged, or it appends one client,
    which is then the one found for the window. *)
Lemma map_event_clients (conf : config) (ewmh : ewmh_atoms) (X : xserver)
  (ev : xcb_generic_event_t) (st : wm_state) :
  let w := me_window (as_map_request ev) in
  let st' := map_event conf ewmh X ev st in
  find_client_by_win w st = None ->
  (clients st' = clients st /\ find_client_by_win w st' = None)
  \/ (exists cl, clients st' = clients st ++ [cl] /\ win cl = w
                 /\ find_client_by_win w st' = Some (length (clients st))).
Proof.
  intros w st' Hnone. subst st'.
  destruct (map_event_guard X w st) eqn:Hg.
  { left. unfold map_event. fold w. rewrite Hg. split; [reflexivity|exact Hnone]. }
  destruct (existsb (is_dock_type ewmh) (type_atoms X w)) eqn:Hd.
  { left. rewrite (map_event_dock conf ewmh X ev st Hg Hd).
    split; [reflexivity|exact Hnone]. }
  right. destruct (map_event_kept conf ewmh X ev st Hg Hd)
    as (cl & lg & Heq & Hw & _).
  exists cl. rewrite Heq. split; [reflexivity|]. split; [exact Hw|].
  unfold find_client_by_win in *. simpl. apply find_win_snoc; assumption.
Qed.

Lemma map_event_managed (conf : config) (ewmh : ewmh_atoms) (X : xserver)
  (ev : xcb_generic_event_t) (st : wm_state) :
  is_Some (find_client_by_win (me_window (as_map_request ev)) st) ->
  map_event conf ewmh X ev st = st.
Proof.
  intros H. unfold map_event, map_event_guard.
  destruct (xcb_get_window_attributes_reply X _); [|reflexivity].
  rewrite (bool_decide_eq_true_2 _ H), orb_true_r. reflexivity.
Qed.


(** X4: the client that a map request makes is transient exactly when the
    transient-for target read is not 0, and floating exactly when one of
    the type atoms read is of a floating type or the client is
    transient. *)
Theorem map_event_classifies (conf : config) (ewmh : ewmh_atoms)
  (X : xserver) (ev : xcb_generic_event_t) (st : wm_state) (c : nat) :
  let w := me_window (as_map_request ev) in
  let st' := map_event conf ewmh X ev st in
  find_client_by_win w st = None ->
  find_client_by_win w st' = Some c ->
  (is_transient (deref c st') = true <-> transient_for X w <> 0)
  /\ (is_floating (deref c st') = true <->
      (exists a, In a (type_atoms X w) /\ is_floating_type ewmh a = true)
      \/ transient_for X w <> 0).
Proof.
  intros w st' Hnone Hsome.
  destruct (map_event_produces conf ewmh X ev st c Hnone Hsome)
    as (Hg & Hd & ->).
  destruct (map_event_kept conf ewmh X ev st Hg Hd)
    as (cl & lg & Heq & _ & Htr & Hfl & Hrect).
  fold w in Htr, Hfl, Hrect.
  assert (Hcl : deref (length (clients st)) st' = cl).
  { subst st'. rewrite Heq. apply deref_last. }
  rewrite Hcl.
  assert (Ht : is_transient cl = true <-> transient_for X w <> 0).
  { rewrite Htr, negb_true_iff, Z.eqb_neq. reflexivity. }
  split; [exact Ht|].
  rewrite Hfl, orb_true_iff, Ht, existsb_exists. reflexivity.
Qed.

Lemma map_event_classifies_witness :
  let X := Sample.server (Some [5; 308]) None
             (Some {| geom_x := 3; geom_y := 4;
                      geom_width := 100; geom_height := 50 |}) in
  let st' := map_event Sample.conf Sample.ewmh X (Sample.event 20 7 7 0 0)
               Sample.empty in
  is_floating (deref 0 st') = true
  /\ (is_transient (deref 0 st') = true <-> transient_for X 7 <> 0).
Proof.
  destruct (map_event_classifies Sample.conf Sample.ewmh
              (Sample.server (Some [5; 308]) None
                 (Some {| geom_x := 3; geom_y := 4;
                          geom_width := 100; geom_height := 50 |}))
              (Sample.event 20 7 7 0 0) Sample.empty O eq_refl eq_refl)
    as (Ht & Hf).
  split; [|exact Ht].
  apply Hf. left. exists 308. split; [right; left; reflexivity|reflexivity].
Defined.




(** *** The client list across [handle_event] *)

(** What one event does to the client list: nothing, or the removal of one
    client on a destroy-notify, an unmap-notify or a client message, or the
    addition of one client for an unmanaged window on a map request. *)
Lemma handle_event_clients (conf : config) (ewmh : ewmh_atoms)
  (screen : xcb_screen_t) (X : xserver) (ev : xcb_generic_event_t)
  (st : wm_state) :
  let kind := Z.land (response_type ev) (Z.lnot 128) in
  let st' := handle_event conf ewmh screen X ev st in
  clients st' = clients st
  \/ ((kind = XCB_DESTROY_NOTIFY \/ kind = XCB_UNMAP_NOTIFY
       \/ kind = XCB_CLIENT_MESSAGE)
      /\ exists c, is_Some (clients st !! c)
                   /\ clients st' = delete c (clients st))
  \/ (kind = XCB_MAP_REQUEST
      /\ exists cl, clients st' = clients st ++ [cl]
                    /\ win cl = me_window (as_map_request ev)
                    /\ find_client_by_win (win cl) st = None).
Proof.
  intros kind st'. subst st'. rewrite handle_event_routes. fold kind.
  destruct (Z.eqb_spec kind 4) as [_|_].
  { left. unfold button_press_event. case_ifs; reflexivity. }
  destruct (Z.eqb_spec kind 20) as [Hk|_].
  { destruct (find_client_by_win (me_window (as_map_request ev)) st)
      as [c|] eqn:Hf.
    - left. rewrite map_event_managed by (eexists; exact Hf). reflexivity.
    - destruct (map_event_clients conf ewmh X ev st Hf)
        as [[H _]|(cl & H & Hw & _)]; [left; exact H|].
      right. right. split; [exact Hk|]. exists cl.
      split; [exact H|]. split; [exact Hw|]. rewrite Hw. exact Hf. }
  destruct (Z.eqb_spec kind 17) as [Hk|_].
  { unfold destroy_event.
    destruct (find_client_by_win _ st) as [c|] eqn:Hf; [|left; reflexivity].
    right. left. split; [left; exact Hk|]. exists c.
    split; [exact (find_win_bound _ _ c Hf)|reflexivity]. }
  destruct (Z.eqb_spec kind 7) as [_|_].
  { left. unfold enter_event. case_ifs; reflexivity. }
  destruct (Z.eqb_spec kind 22) as [_|_].
  { left. reflexivity. }
  destruct (Z.eqb_spec kind 18) as [Hk|_].
  { unfold unmap_event.
    destruct (find_client_by_win _ st) as [c|] eqn:Hf; [|left; reflexivity].
    destruct (negb _); [|left; reflexivity].
    right. left. split; [right; left; exact Hk|]. exists c.
    split; [exact (find_win_bound _ _ c Hf)|reflexivity]. }
  destruct (Z.eqb_spec kind 33) as [Hk|_]; [|left; reflexivity].
  unfold client_message_event.
  destruct (find_client_by_win _ st) as [c|] eqn:Hf; [|left; reflexivity].
  destruct (cm_type _ =? _NET_WM_STATE ewmh).
  { left. case_ifs; reflexivity. }
  destruct (cm_type _ =? _NET_CLOSE_WINDOW ewmh).
  { right. left. split; [right; right; exact Hk|]. exists c.
    split; [exact (find_win_bound _ _ c Hf)|reflexivity]. }
  left. case_ifs; reflexivity.
Qed.

(** X6: if no window has two clients before an event is handled, none has
    two afterwards. *)
Theorem handle_event_unique_windows (conf : config) (ewmh : ewmh_atoms)
  (screen : xcb_screen_t) (X : xserver) (ev : xcb_generic_event_t)
  (st : wm_state) :
  NoDup (windows st) ->
  NoDup (windows (handle_event conf ewmh screen X ev st)).
Proof.
  intros Hnd. unfold windows in *.
  destruct (handle_event_clients conf ewmh screen X ev st)
    as [->|[(_ & c & _ & ->)|(_ & cl & -> & _ & Hf)]].
  - exact Hnd.
  - apply (sublist_NoDup _ (win <$> clients st)); [exact Hnd|].
    apply fmap_sublist, sublist_delete.
  - rewrite fmap_app. apply NoDup_app. split; [exact Hnd|].
    split; [|apply NoDup_singleton].
    intros w Hin Hw. apply list_elem_of_singleton in Hw. subst w.
    apply find_win_not_windows in Hf. contradiction.
Qed.

Lemma handle_event_unique_windows_witness :
  NoDup (windows (handle_event Sample.conf Sample.ewmh Sample.screen
                    Sample.plain (Sample.event 20 9 9 0 0) Sample.managed))
  /\ windows (handle_event Sample.conf Sample.ewmh Sample.screen
                Sample.plain (Sample.event 20 9 9 0 0) Sample.managed)
     = [7; 9].
Proof.
  split; [|reflexivity].
  apply (handle_event_unique_windows Sample.conf Sample.ewmh Sample.screen
           Sample.plain (Sample.event 20 9 9 0 0) Sample.managed).
  apply NoDup_singleton.
Defined.

(** X7: one event changes the number of clients by at most one.  It grows,
    by one, only on a map request, and then the event's window was
    unmanaged; it shrinks, by one, only on a destroy-notify, an
    unmap-notify or a client message. *)
Theorem handle_event_client_count (conf : config) (ewmh : ewmh_atoms)
  (screen : xcb_screen_t) (X : xserver) (ev : xcb_generic_event_t)
  (st : wm_state) :
  let kind := Z.land (response_type ev) (Z.lnot 128) in
  let n := length (clients st) in
  let n' := length (clients (handle_event conf ewmh screen X ev st)) in
  (n' = n \/ n' = S n \/ S n' = n)
  /\ (n' = S n ->
      kind = XCB_MAP_REQUEST
      /\ find_client_by_win (me_window (as_map_request ev)) st = None)
  /\ (S n' = n ->
      kind = XCB_DESTROY_NOTIFY \/ kind = XCB_UNMAP_NOTIFY
      \/ kind = XCB_CLIENT_MESSAGE).
Proof.
  intros kind n n'. subst n n'.
  destruct (handle_event_clients conf ewmh screen X ev st)
    as [->|[(Hk & c & Hc & ->)|(Hk & cl & -> & Hw & Hf)]].
  - split; [left; reflexivity|]. split; intros H; lia.
  - rewrite (length_delete _ _ Hc). apply lookup_lt_is_Some_1 in Hc.
    split; [right; right; lia|]. split; intros H; [lia|exact Hk].
  - rewrite length_app. simpl. rewrite Hw in Hf.
    split; [right; left; lia|]. split; intros H; [|lia].
    split; [exact Hk|exact Hf].
Qed.

Lemma handle_event_client_count_witness :
  Z.land 20 (Z.lnot 128) = XCB_MAP_REQUEST
  /\ find_client_by_win 9 Sample.managed = None
  /\ length (clients (handle_event Sample.conf Sample.ewmh Sample.screen
                        Sample.plain (Sample.event 20 9 9 0 0) Sample.managed))
     = 2%nat.
Proof.
  destruct (proj1 (proj2 (handle_event_client_count Sample.conf Sample.ewmh
                            Sample.screen Sample.plain
                            (Sample.event 20 9 9 0 0) Sample.managed))
              eq_refl) as [Hk Hf].
  split; [exact Hk|]. split; [exact Hf|reflexivity].
Defined.

(** *** Dispatch on the kind *)

(** X8: the bit 0x80 of the response type, which marks an event sent by
    another client, makes no difference: the event is handled exactly as
    the same event without the bit. *)
Theorem handle_event_synthetic (conf : config) (ewmh : ewmh_atoms)
  (screen : xcb_screen_t) (X : xserver) (ev : xcb_generic_event_t)
  (st : wm_state) (rt : Z) :
  0 <= rt < 128 ->
  handle_event conf ewmh screen X (with_response_type (rt + 128) ev) st
  = handle_event conf ewmh screen X (with_response_type rt ev) st.
Proof.
  intros Hrt. unfold handle_event, unhandled_event.
  cbn [response_type with_response_type].
  rewrite (response_type_masked (rt + 128)) by (unfold is_uint8; lia).
  rewrite (response_type_masked rt) by (unfold is_uint8; lia).
  destruct (Z.ltb_spec (rt + 128) 128); [lia|].
  destruct (Z.ltb_spec rt 128); [|lia].
  replace (rt + 128 - 128) with rt by lia.
  case_ifs; reflexivity.
Qed.

Lemma handle_event_synthetic_witness :
  handle_event Sample.conf Sample.ewmh Sample.screen Sample.plain
    (with_response_type (20 + 128) (Sample.event 0 7 7 0 0)) Sample.empty
  = handle_event Sample.conf Sample.ewmh Sample.screen Sample.plain
      (with_response_type 20 (Sample.event 0 7 7 0 0)) Sample.empty.
Proof.
  apply (handle_event_synthetic Sample.conf Sample.ewmh Sample.screen
           Sample.plain (Sample.event 0 7 7 0 0) Sample.empty 20).
  lia.
Defined.

(** X9: an event whose kind is none of the seven that [handle_event] has a
    case for leaves the clients, the focused monitor and the calls as they
    were; one debug line with the kind is logged and that is all. *)
Theorem handle_event_unknown (conf : config) (ewmh : ewmh_atoms)
  (screen : xcb_screen_t) (X : xserver) (ev : xcb_generic_event_t)
  (st : wm_state) :
  let kind := Z.land (response_type ev) (Z.lnot 128) in
  let st' := handle_event conf ewmh screen X ev st in
  ~ In kind dispatched_kinds ->
  clients st' = clients st
  /\ mon st' = mon st
  /\ calls st' = calls st
  /\ logs st' = logs st ++ [Log_debug "Unhandled event: %d" [kind]].
Proof.
  intros kind st' Hk. subst st'. rewrite handle_event_routes. fold kind.
  unfold dispatched_kinds in Hk. simpl in Hk.
  repeat match goal with
         | |- context [kind =? ?k] =>
             destruct (Z.eqb_spec kind k) as [E|_];
             [exfalso; apply Hk; rewrite E; unfold XCB_BUTTON_PRESS,
                XCB_MAP_REQUEST, XCB_DESTROY_NOTIFY, XCB_ENTER_NOTIFY,
                XCB_CONFIGURE_NOTIFY, XCB_UNMAP_NOTIFY, XCB_CLIENT_MESSAGE;
              tauto|]
         end.
  repeat split.
Qed.

Lemma handle_event_unknown_witness :
  let st' := handle_event Sample.conf Sample.ewmh Sample.screen Sample.plain
               (Sample.event 2 7 7 0 0) Sample.managed in
  clients st' = clients Sample.managed
  /\ mon st' = mon Sample.managed
  /\ calls st' = calls Sample.managed
  /\ logs st' = [Log_debug "Unhandled event: %d" [2]].
Proof.
  apply (handle_event_unknown Sample.conf Sample.ewmh Sample.screen
           Sample.plain (Sample.event 2 7 7 0 0) Sample.managed).
  simpl. intros H. repeat destruct H as [H|H]; try discriminate H. exact H.
Defined.

(** *** Client messages *)

(** X10: the table of [client_message_event] for a managed window, the four
    message atoms being distinct: a [_NET_WM_STATE] message passes the
    first state atom, and the second if it is not 0, to
    [ewmh_process_wm_state] with the same action word; [_NET_CLOSE_WINDOW]
    removes the client with the flag [true] and re-runs the layout;
    [_NET_ACTIVE_WINDOW] focuses the client; [_NET_CURRENT_DESKTOP] with an
    index below the workspace count changes to that workspace.  Only the
    close message changes the client list. *)
Theorem client_message_event_table (ewmh : ewmh_atoms)
  (ev : xcb_generic_event_t) (st : wm_state) (c : nat) :
  let cm := as_client_message ev in
  let st' := client_message_event ewmh ev st in
  NoDup [_NET_WM_STATE ewmh; _NET_CLOSE_WINDOW ewmh; _NET_ACTIVE_WINDOW ewmh;
         _NET_CURRENT_DESKTOP ewmh] ->
  find_client_by_win (cm_window cm) st = Some c ->
  (cm_type cm = _NET_WM_STATE ewmh ->
   clients st' = clients st
   /\ calls_since st st'
      = Ewmh_process_wm_state c (data32_1 cm) (data32_0 cm)
        :: (if data32_2 cm =? 0 then []
            else [Ewmh_process_wm_state c (data32_2 cm) (data32_0 cm)]))
  /\ (cm_type cm = _NET_CLOSE_WINDOW ewmh ->
      clients st' = delete c (clients st)
      /\ calls_since st st' = [Remove_client c true; Arrange_windows])
  /\ (cm_type cm = _NET_ACTIVE_WINDOW ewmh ->
      clients st' = clients st
      /\ calls_since st st' = [Update_focused_client (Some c)])
  /\ (cm_type cm = _NET_CURRENT_DESKTOP ewmh ->
      data32_0 cm < workspace_cnt (mon st) ->
      clients st' = clients st
      /\ calls_since st st'
         = [Index_to_workspace (data32_0 cm); Change_ws (data32_0 cm)]).
Proof.
  intros cm st' Hnd Hf. subst st'.
  apply NoDup_cons in Hnd as [H1 Hnd]. apply NoDup_cons in Hnd as [H2 Hnd].
  apply NoDup_cons in Hnd as [H3 _].
  rewrite list_elem_of_In in H1, H2, H3. simpl in H1, H2, H3.
  assert (H12 : _NET_WM_STATE ewmh <> _NET_CLOSE_WINDOW ewmh) 
    by (intros E; symmetry in E; tauto).
  assert (H13 : _NET_WM_STATE ewmh <> _NET_ACTIVE_WINDOW ewmh) 
    by (intros E; symmetry in E; tauto).
  assert (H14 : _NET_WM_STATE ewmh <> _NET_CURRENT_DESKTOP ewmh) 
    by (intros E; symmetry in E; tauto).
  assert (H23 : _NET_CLOSE_WINDOW ewmh <> _NET_ACTIVE_WINDOW ewmh) 
    by (intros E; symmetry in E; tauto).
  assert (H24 : _NET_CLOSE_WINDOW ewmh <> _NET_CURRENT_DESKTOP ewmh) 
    by (intros E; symmetry in E; tauto).
  assert (H34 : _NET_ACTIVE_WINDOW ewmh <> _NET_CURRENT_DESKTOP ewmh) 
    by (intros E; symmetry in E; tauto).
  clear H1 H2 H3.
  unfold client_message_event. fold cm. rewrite Hf.
  split; [|split; [|split]].
  - intros ->. rewrite Z.eqb_refl. destruct (data32_2 cm =? 0); simpl.
    + split; [reflexivity|]. apply calls_since_app. reflexivity.
    + split; [reflexivity|]. apply calls_since_app. simpl.
      rewrite <- app_assoc. reflexivity.
  - intros ->. apply not_eq_sym, Z.eqb_neq in H12. rewrite H12, Z.eqb_refl.
    split; [reflexivity|]. apply calls_since_app. simpl.
    rewrite <- app_assoc. reflexivity.
  - intros ->. apply not_eq_sym, Z.eqb_neq in H13, H23.
    rewrite H13, H23, Z.eqb_refl. unfold find_client_by_win in *. simpl.
    rewrite Hf.
    split; [reflexivity|]. apply calls_since_app. reflexivity.
  - intros -> Hlt. apply not_eq_sym, Z.eqb_neq in H14, H24, H34.
    rewrite H14, H24, H34, Z.eqb_refl.
    apply Z.ltb_lt in Hlt. rewrite Hlt. simpl.
    split; [reflexivity|]. apply calls_since_app. simpl.
    rewrite <- app_assoc. reflexivity.
Qed.

Lemma client_message_event_table_witness :
  calls_since Sample.managed
    (client_message_event Sample.ewmh (Sample.event 33 7 7 310 0)
       Sample.managed)
  = [Remove_client 0 true; Arrange_windows]
  /\ calls_since Sample.managed
       (client_message_event Sample.ewmh (Sample.event 33 7 7 311 0)
          Sample.managed)
     = [Update_focused_client (Some O)].
Proof.
  assert (Hnd : NoDup [_NET_WM_STATE Sample.ewmh; _NET_CLOSE_WINDOW Sample.ewmh;
                       _NET_ACTIVE_WINDOW Sample.ewmh;
                       _NET_CURRENT_DESKTOP Sample.ewmh]).
  { repeat (apply NoDup_cons_2;
              [rewrite list_elem_of_In; simpl; intuition discriminate|]).
    apply NoDup_nil_2. }
  split.
  - apply (proj1 (proj2 (client_message_event_table Sample.ewmh
       (Sample.event 33 7 7 310 0) Sample.managed O Hnd eq_refl))).
    reflexivity.
  - apply (proj1 (proj2 (proj2 (client_message_event_table Sample.ewmh
       (Sample.event 33 7 7 311 0) Sample.managed O Hnd eq_refl)))).
    reflexivity.
Defined.

(** X11: a client message for a window that is not managed, whatever its
    type, and a message of a type that is none of the four atoms, are
    dropped: no call is made, the client list stays, one debug line is
    logged. *)
Theorem client_message_event_dropped (ewmh : ewmh_atoms)
  (ev : xcb_generic_event_t) (st : wm_state) :
  let cm := as_client_message ev in
  let st' := client_message_event ewmh ev st in
  find_client_by_win (cm_window cm) st = None
  \/ ~ In (cm_type cm)
       [_NET_WM_STATE ewmh; _NET_CLOSE_WINDOW ewmh; _NET_ACTIVE_WINDOW ewmh;
        _NET_CURRENT_DESKTOP ewmh] ->
  clients st' = clients st
  /\ calls st' = calls st
  /\ logs st'
     = logs st ++ [Log_debug "Unhandled client message: %d" [cm_type cm]].
Proof.
  intros cm st' H. subst st'. unfold client_message_event. fold cm.
  destruct (find_client_by_win (cm_window cm) st) as [c|] eqn:Hf;
    [|repeat split].
  destruct H as [H|H]; [discriminate|]. simpl in H.
  repeat match goal with
         | |- context [cm_type cm =? ?a] =>
             destruct (Z.eqb_spec (cm_type cm) a) as [E|_];
             [exfalso; apply H; rewrite <- E; tauto|]
         end.
  repeat split.
Qed.

Lemma client_message_event_dropped_witness :
  calls (client_message_event Sample.ewmh (Sample.event 33 9 9 310 0)
           Sample.managed) = []
  /\ clients (client_message_event Sample.ewmh (Sample.event 33 7 7 500 0)
                Sample.managed) = [new_client Sample.conf 7].
Proof.
  split.
  - apply (client_message_event_dropped Sample.ewmh
             (Sample.event 33 9 9 310 0) Sample.managed).
    left. reflexivity.
  - apply (client_message_event_dropped Sample.ewmh
             (Sample.event 33 7 7 500 0) Sample.managed).
    right. simpl. intros H. repeat destruct H as [H|H]; try discriminate H.
    exact H.
Defined.

(** *** Pointer events *)

(** X12: [button_press_event] sends nothing when [conf.focus_mouse_click] is
    off.  When it is on, every press, of any button, is replayed to the
    client and the connection flushed, as the last two calls; the focus
    moves, to the reporting window and before the replay, only for button
    1.  The client list is never changed. *)
Theorem button_press_event_replays (conf : config)
  (ev : xcb_generic_event_t) (st : wm_state) :
  let be := as_button_press ev in
  let st' := button_press_event conf ev st in
  let made := calls_since st st' in
  clients st' = clients st
  /\ (focus_mouse_click conf = false -> made = [])
  /\ (focus_mouse_click conf = true ->
      exists focus,
        made = focus ++ [Xcb_allow_events XCB_ALLOW_REPLAY_POINTER (be_time be);
                         Xcb_flush]
        /\ (be_detail be = XCB_BUTTON_INDEX_1 ->
            focus = [Focus_window (be_event be)])
        /\ (be_detail be <> XCB_BUTTON_INDEX_1 -> focus = [])).
Proof.
  intros be st' made. subst made st'. unfold button_press_event. fold be.
  split; [case_ifs; reflexivity|]. split; intros Hc; rewrite Hc; simpl.
  - apply calls_since_app. simpl. symmetry. apply app_nil_r.
  - destruct (Z.eqb_spec (be_detail be) XCB_BUTTON_INDEX_1) as [E|E].
    + exists [Focus_window (be_event be)]. split.
      * apply calls_since_app. simpl. rewrite <- !app_assoc. reflexivity.
      * split; [reflexivity|contradiction].
    + exists []. split.
      * apply calls_since_app. simpl. rewrite <- !app_assoc. reflexivity.
      * split; [contradiction|reflexivity].
Qed.

Lemma button_press_event_replays_witness :
  calls_since Sample.managed
    (button_press_event Sample.conf (Sample.event 4 7 7 0 0) Sample.managed)
  = [Focus_window 7; Xcb_allow_events 2 0; Xcb_flush].
Proof.
  destruct (proj2 (proj2 (button_press_event_replays Sample.conf
              (Sample.event 4 7 7 0 0) Sample.managed)) eq_refl)
    as (focus & Hmade & Hone & _).
  rewrite Hmade, (Hone eq_refl). reflexivity.
Defined.

(** X13: [enter_event] always focuses the monitor under the pointer, which
    is the focused monitor afterwards, and makes that call first.  It then
    focuses the reporting window exactly when [conf.focus_mouse] is on and
    the layout of that monitor's workspace, not of the monitor focused
    before, is not [ZOOM].  The client list is never changed. *)
Theorem enter_event_follows (conf : config) (X : xserver)
  (ev : xcb_generic_event_t) (st : wm_state) :
  let ee := as_enter_notify ev in
  let m := point_to_monitor X (ee_root_x ee, ee_root_y ee) in
  let st' := enter_event conf X ev st in
  let made := calls_since st st' in
  mon st' = m
  /\ clients st' = clients st
  /\ (focus_mouse conf = true /\ layout (ws m) <> ZOOM ->
      made = [Focus_monitor m; Focus_window (ee_event ee)])
  /\ (focus_mouse conf = false \/ layout (ws m) = ZOOM ->
      made = [Focus_monitor m]).
Proof.
  intros ee m st' made. subst made st'. unfold enter_event. fold ee m.
  cbn [focus_monitor do_call mon log_debug].
  assert (Hz : layouts_eqb (layout (ws m)) ZOOM = true <-> layout (ws m) = ZOOM).
  { destruct (layout (ws m)); simpl; split; congruence. }
  split; [case_ifs; reflexivity|]. split; [case_ifs; reflexivity|]. split.
  - intros [Hf Hl]. rewrite Hf.
    destruct (layouts_eqb (layout (ws m)) ZOOM) eqn:E;
      [exfalso; apply Hl, Hz; reflexivity|].
    apply calls_since_app. simpl. rewrite <- app_assoc. reflexivity.
  - intros H.
    assert (Hb : focus_mouse conf
                 && negb (layouts_eqb (layout (ws m)) ZOOM) = false).
    { destruct H as [->|Hl]; [reflexivity|].
      apply Hz in Hl. rewrite Hl. apply andb_false_r. }
    rewrite Hb. apply calls_since_app. reflexivity.
Qed.

Lemma enter_event_follows_witness :
  let zoomed :=
    {| clients := [new_client Sample.conf 7];
       mon := {| mon_rect := mon_rect Sample.monitor; workspace_cnt := 5;
                 ws := {| bar_height := 20; layout := ZOOM |} |};
       calls := []; logs := [] |} in
  calls_since zoomed
    (enter_event Sample.conf Sample.plain (Sample.event 7 7 7 0 0) zoomed)
  = [Focus_monitor Sample.monitor; Focus_window 7].
Proof.
  apply (proj1 (proj2 (proj2 (enter_event_follows Sample.conf Sample.plain
           (Sample.event 7 7 7 0 0)
           {| clients := [new_client Sample.conf 7];
              mon := {| mon_rect := mon_rect Sample.monitor;
                        workspace_cnt := 5;
                        ws := {| bar_height := 20; layout := ZOOM |} |};
              calls := []; logs := [] |})))).
  split; [reflexivity|discriminate].
Defined.

(** *** The array of [configure_event] *)

(** One test of [configure_event] followed by its store keeps the words
    from the index on at 0. *)
Lemma store_tail (b : bool) (v : Z) (s : list Z * nat) :
  drop (snd s) (fst s) = replicate (length (fst s) - snd s) 0 ->
  let s' := if b then store v s else s in
  drop (snd s') (fst s') = replicate (length (fst s') - snd s') 0.
Proof.
  intros H. destruct b; [|exact H]. unfold store. simpl.
  rewrite length_insert, drop_insert_lt by lia.
  replace (S (snd s)) with (snd s + 1)%nat at 1 by lia.
  rewrite <- drop_drop, H, drop_replicate. f_equal. lia.
Qed.

(** X14: [configure_event] stores one word for each of the seven mask bits
    that is set and none for any other bit of the mask; the index never
    passes the end of the seven-word array, and the words from the index on
    are still 0 when the array is handed to [xcb_configure_window]. *)
Theorem configure_event_vals_bounds (conf : config)
  (ce : xcb_configure_request_event_t) (m : monitor_t) :
  let vals := fst (configure_event_vals conf ce m) in
  let i := snd (configure_event_vals conf ce m) in
  let bit (k : Z) : nat :=
    if Z.testbit (ce_value_mask ce) k then 1%nat else 0%nat in
  length vals = 7%nat
  /\ i = (bit 0%Z + bit 1%Z + bit 2%Z + bit 3%Z + bit 4%Z + bit 5%Z
           + bit 6%Z)%nat
  /\ (i <= 7)%nat
  /\ drop i vals = replicate (7 - i) 0.
Proof.
  intros vals i bit.
  destruct (configure_event_vals_spec conf ce m) as (Hlen & Hi & _ & Hle).
  fold vals in Hlen. fold i in Hi.
  split; [exact Hlen|]. split; [|split].
  - rewrite Hi. unfold configure_spec, bit.
    rewrite !length_app.
    change (Z.log2 XCB_CONFIG_WINDOW_X) with 0.
    change (Z.log2 XCB_CONFIG_WINDOW_Y) with 1.
    change (Z.log2 XCB_CONFIG_WINDOW_WIDTH) with 2.
    change (Z.log2 XCB_CONFIG_WINDOW_HEIGHT) with 3.
    change (Z.log2 XCB_CONFIG_WINDOW_BORDER_WIDTH) with 4.
    change (Z.log2 XCB_CONFIG_WINDOW_SIBLING) with 5.
    change (Z.log2 XCB_CONFIG_WINDOW_STACK_MODE) with 6.
    destruct (Z.testbit (ce_value_mask ce) 0),
      (Z.testbit (ce_value_mask ce) 1), (Z.testbit (ce_value_mask ce) 2),
      (Z.testbit (ce_value_mask ce) 3), (Z.testbit (ce_value_mask ce) 4),
      (Z.testbit (ce_value_mask ce) 5), (Z.testbit (ce_value_mask ce) 6);
      reflexivity.
  - rewrite Hi. exact Hle.
  - rewrite <- Hlen. subst vals i. unfold configure_event_vals.
    do 7 apply store_tail. reflexivity.
Qed.

(** *** Removal, twice *)

(** X15: when no window has two clients, a destroy-notify for a window that
    a destroy-notify has just unmanaged changes nothing, and neither does
    an unmap-notify for it. *)
Theorem destroy_event_twice (screen : xcb_screen_t)
  (ev ev' : xcb_generic_event_t) (st : wm_state) :
  let w := de_window (as_destroy_notify ev) in
  let st1 := destroy_event ev st in
  NoDup (windows st) ->
  (de_window (as_destroy_notify ev') = w -> destroy_event ev' st1 = st1)
  /\ (ue_window (as_unmap_notify ev') = w -> unmap_event screen ev' st1 = st1).
Proof.
  intros w st1 Hnd.
  assert (Hf : find_client_by_win w st1 = None).
  { subst st1. unfold destroy_event. fold w.
    destruct (find_client_by_win w st) as [c|] eqn:Hc; [|exact Hc].
    unfold find_client_by_win. simpl. apply find_win_not_windows.
    apply (delete_found w (clients st) c Hnd Hc). }
  split; intros Hw.
  - unfold destroy_event. rewrite Hw, Hf. reflexivity.
  - unfold unmap_event. rewrite Hw, Hf. reflexivity.
Qed.

Lemma destroy_event_twice_witness :
  let st1 := destroy_event (Sample.event 17 7 7 0 0) Sample.managed in
  destroy_event (Sample.event 17 7 7 0 0) st1 = st1
  /\ unmap_event Sample.screen (Sample.event 18 7 7 0 0) st1 = st1.
Proof.
  split.
  - apply (proj1 (destroy_event_twice Sample.screen (Sample.event 17 7 7 0 0)
                    (Sample.event 17 7 7 0 0) Sample.managed
                    (NoDup_singleton _))). reflexivity.
  - apply (proj2 (destroy_event_twice Sample.screen (Sample.event 17 7 7 0 0)
                    (Sample.event 18 7 7 0 0) Sample.managed
                    (NoDup_singleton _))). reflexivity.
Defined.

(** *** Centred floating clients *)

(** X16: with [conf.center_floating], a floating client made by a map
    request whose size is no more than the monitor's width and the height
    left under the bar lies within them, and the margins on its two sides
    differ by at most one pixel, horizontally and vertically. *)
Theorem map_event_centred_fits (conf : config) (ewmh : ewmh_atoms)
  (X : xserver) (ev : xcb_generic_event_t) (st : wm_state) (c : nat)
  (geom : xcb_get_geometry_reply_t) :
  let w := me_window (as_map_request ev) in
  let st' := map_event conf ewmh X ev st in
  let r := rect (deref c st') in
  let width := rect_width (mon_rect (mon st)) in
  let usable := rect_height (mon_rect (mon st)) - bar_height (ws (mon st)) in
  find_client_by_win w st = None ->
  find_client_by_win w st' = Some c ->
  is_floating (deref c st') = true ->
  xcb_get_geometry_reply X w = Some geom ->
  center_floating conf = true ->
  is_uint16 width -> is_uint16 (rect_height (mon_rect (mon st))) ->
  0 <= bar_height (ws (mon st)) ->
  0 <= rect_width r <= width ->
  0 <= rect_height r <= usable ->
  (0 <= rect_x r /\ rect_x r + rect_width r <= width
   /\ -1 <= width - (rect_x r + rect_width r) - rect_x r <= 1)
  /\ (0 <= rect_y r /\ rect_y r + rect_height r <= usable
      /\ 0 <= usable - (rect_y r + rect_height r) - rect_y r <= 1).
Proof.
  intros w st' r width usable Hnone Hsome Hfl Hgeom Hcf Hmw Hmh Hbar Hw Hh.
  destruct (map_event_produces conf ewmh X ev st c Hnone Hsome)
    as (Hg & Hd & ->).
  destruct (map_event_kept conf ewmh X ev st Hg Hd)
    as (cl & lg & Heq & _ & _ & _ & Hrect).
  assert (Hcl : deref (length (clients st)) st' = cl).
  { subst st'. rewrite Heq. apply deref_last. }
  subst r. rewrite Hcl in *. clear Hcl.
  fold w in Hrect. rewrite Hgeom, Hfl, Hcf in Hrect. cbv zeta in Hrect.
  fold width in Hrect. rewrite Hrect in *.
  cbn [rect_x rect_y rect_width rect_height] in *.
  set (cw := if 1 <? geom_width geom then geom_width geom
             else float_spawn_width conf) in *.
  set (ch := if 1 <? geom_height geom then geom_height geom
             else float_spawn_height conf) in *.
  unfold is_uint16 in *. subst usable. clearbody cw ch width.
  rewrite !Z.quot_div_nonneg by lia.
  rewrite !to_int16_id
    by (unfold is_int16; Z.to_euclidean_division_equations; lia).
  Z.to_euclidean_division_equations. lia.
Qed.

Lemma map_event_centred_fits_witness :
  let st' := map_event Sample.conf Sample.ewmh
               (Sample.server (Some [308]) None
                  (Some {| geom_x := 40; geom_y := 60;
                           geom_width := 801; geom_height := 600 |}))
               (Sample.event 20 7 7 0 0) Sample.empty in
  let r := rect (deref 0 st') in
  (0 <= rect_x r /\ rect_x r + rect_width r <= 1920
   /\ -1 <= 1920 - (rect_x r + rect_width r) - rect_x r <= 1)
  /\ (0 <= rect_y r /\ rect_y r + rect_height r <= 1080 - 20
      /\ 0 <= 1080 - 20 - (rect_y r + rect_height r) - rect_y r <= 1).
Proof.
  apply (map_event_centred_fits Sample.conf Sample.ewmh
           (Sample.server (Some [308]) None
              (Some {| geom_x := 40; geom_y := 60;
                       geom_width := 801; geom_height := 600 |}))
           (Sample.event 20 7 7 0 0) Sample.empty O
           {| geom_x := 40; geom_y := 60;
              geom_width := 801; geom_height := 600 |});
    try reflexivity; unfold is_uint16; simpl; lia.
Defined.

(** *** Negative positions in a configure request *)

Lemma to_int32_to_uint32 (v : Z) :
  - 2 ^ 31 <= v < 2 ^ 31 -> to_int32 (to_uint32 v) = v.
Proof.
  intros H. unfold to_int32, to_uint32.
  rewrite Zplus_mod_idemp_l.
  rewrite Z.mod_small by lia. lia.
Qed.

(** X17: a requested x or y, negative ones included, is not clamped: when
    the x bit of the mask is set the first word handed to
    [xcb_configure_window] is x in 32-bit two's complement, and when the y
    bit is set the word after it (the first word if the x bit is clear) is
    y, plus the bar height unless the bar is at the bottom, in 32-bit two's
    complement. *)
Theorem configure_event_position_signed (conf : config)
  (ce : xcb_configure_request_event_t) (m : monitor_t) :
  let vals := fst (configure_event_vals conf ce m) in
  let y := ce_y ce + (if bar_bottom conf then 0 else bar_height (ws m)) in
  let iy := if Z.testbit (ce_value_mask ce) 0 then 1%nat else 0%nat in
  is_int16 (ce_x ce) -> is_int16 (ce_y ce) -> is_uint16 (bar_height (ws m)) ->
  (Z.testbit (ce_value_mask ce) 0 = true ->
   exists word, vals !! O = Some word /\ to_int32 word = ce_x ce)
  /\ (Z.testbit (ce_value_mask ce) 1 = true ->
      exists word, vals !! iy = Some word /\ to_int32 word = y).
Proof.
  intros vals y iy Hx Hy Hbar.
  destruct (configure_event_vals_spec conf ce m) as (_ & Hi & Htake & _).
  fold vals in Htake.
  assert (Hlook : forall k v, configure_spec conf ce m !! k = Some v ->
                              vals !! k = Some (to_uint32 v)).
  { intros k v Hk.
    rewrite <- (lookup_take_lt vals (snd (configure_event_vals conf ce m)) k).
    - rewrite Htake, list_lookup_fmap, Hk. reflexivity.
    - rewrite Hi. apply lookup_lt_is_Some_1. eexists. exact Hk. }
  unfold is_int16, is_uint16 in *. split.
  - intros Hb. exists (to_uint32 (ce_x ce)). split.
    + apply Hlook. unfold configure_spec.
      change (Z.log2 XCB_CONFIG_WINDOW_X) with 0. rewrite Hb. reflexivity.
    + apply to_int32_to_uint32. lia.
  - intros Hb. exists (to_uint32 y). split.
    + apply Hlook. unfold configure_spec.
      change (Z.log2 XCB_CONFIG_WINDOW_X) with 0.
      change (Z.log2 XCB_CONFIG_WINDOW_Y) with 1. rewrite Hb.
      subst iy y. destruct (Z.testbit (ce_value_mask ce) 0);
        destruct (bar_bottom conf); simpl; rewrite ?Z.add_0_r; reflexivity.
    + apply to_int32_to_uint32. subst y. destruct (bar_bottom conf); lia.
Qed.

Lemma configure_event_position_signed_witness :
  let ce := {| ce_window := 7; ce_x := -5; ce_y := -30; ce_width := 0;
               ce_height := 0; ce_border_width := 0; ce_sibling := 0;
               ce_stack_mode := 0; ce_value_mask := 3 |} in
  let vals := fst (configure_event_vals Sample.conf ce Sample.monitor) in
  (exists word, vals !! O = Some word /\ to_int32 word = -5)
  /\ (exists word, vals !! 1%nat = Some word /\ to_int32 word = -30 + 20).
Proof.
  intros ce vals.
  assert (H := configure_event_position_signed Sample.conf ce Sample.monitor).
  split.
  - apply (proj1 (H ltac:(unfold is_int16; simpl; lia)
                    ltac:(unfold is_int16; simpl; lia)
                    ltac:(unfold is_uint16; simpl; lia))). reflexivity.
  - apply (proj2 (H ltac:(unfold is_int16; simpl; lia)
                    ltac:(unfold is_int16; simpl; lia)
                    ltac:(unfold is_uint16; simpl; lia))). reflexivity.
Defined.
